(* ===================================================================== *)
(* Video sharing backend (FastAPI + MongoDB): shallow embedding of        *)
(* src/main.py and the properties of its handlers.                        *)
(* ===================================================================== *)

From Stdlib Require Import ZArith Ascii.
From stdpp Require Import gmap strings list fin_maps pretty sorting.

Open Scope string_scope.
Open Scope list_scope.
Open Scope Z_scope.

(* --------------------------------------------------------------------- *)
(* 1. Documents and values                                                *)
(* --------------------------------------------------------------------- *)

(** The values the handlers put into documents: None, int, str, ObjectId
    (held by the 24 digit hexadecimal text that [str] prints), datetime
    (a point in time as an integer) and the list of tags. *)
Inductive value :=
  | VNull
  | VInt (z : Z)
  | VStr (s : string)
  | VOid (o : string)
  | VDate (t : Z)
  | VList (l : list string).

#[global] Instance value_eq_dec : EqDecision value.
Proof. solve_decision. Defined.

(** A Python dict with string keys. *)
Abbreviation pydict := (gmap string value).

(** A document as the store holds it: the server gives every document an
    [_id] (an ObjectId here, since no handler supplies its own), next to the
    fields the handler wrote. *)
Record Doc := mkDoc { doc_id : string; doc_fields : pydict }.

(** The dict pymongo hands back for a stored document. *)
Definition as_dict (d : Doc) : pydict := <["_id" := VOid (doc_id d)]> (doc_fields d).

(** Python truth value of a field. *)
Definition truthy (v : value) : bool :=
  match v with
  | VNull => false
  | VInt z => negb (z =? 0)
  | VStr s => negb (String.eqb s "")
  | VOid _ => true
  | VDate _ => true
  | VList l => match l with [] => false | _ => true end
  end.

(** [d.get(k)] followed by a truth test, as in [if v.get("user_id")]. *)
Definition get_truthy (k : string) (d : pydict) : bool :=
  match d !! k with Some v => truthy v | None => false end.

(* --------------------------------------------------------------------- *)
(* 2. Collections: the pymongo operations the handlers call               *)
(* --------------------------------------------------------------------- *)

(** A query such as [{"video_id": v, "value": 1}]: every listed field must be
    present with an equal value.  (None of the queried fields is an array.) *)
Definition query := list (string * value).

Definition matches (q : query) (d : Doc) : bool :=
  forallb (fun kv => bool_decide (as_dict d !! kv.1 = Some kv.2)) q.

(** [find_one]: the first matching document in the collection's order. *)
Fixpoint find_one (q : query) (l : list Doc) : option Doc :=
  match l with
  | [] => None
  | d :: l' => if matches q d then Some d else find_one q l'
  end.

(** [count_documents]. *)
Definition count_documents (q : query) (l : list Doc) : Z :=
  Z.of_nat (length (filter (fun d => matches q d = true) l)).

(** [find]: the matching documents, in the collection's order. *)
Definition find (q : query) (l : list Doc) : list Doc :=
  filter (fun d => matches q d = true) l.

(** [insert_one]: the document gets its fresh [_id] and goes last. *)
Definition insert_one (new_id : string) (fields : pydict) (l : list Doc) : list Doc :=
  l ++ [mkDoc new_id fields].

(** [delete_one]: removes the first matching document, if any. *)
Fixpoint delete_one (q : query) (l : list Doc) : list Doc :=
  match l with
  | [] => []
  | d :: l' => if matches q d then l' else d :: delete_one q l'
  end.

(** [update_one]: applies the update to the first matching document. *)
Fixpoint update_one (q : query) (upd : pydict -> pydict) (l : list Doc) : list Doc :=
  match l with
  | [] => []
  | d :: l' =>
      if matches q d then mkDoc (doc_id d) (upd (doc_fields d)) :: l'
      else d :: update_one q upd l'
  end.

(** The update operators in use: [{"$set": {k: v}}] and [{"$inc": {k: n}}]
    (a missing field counts from zero). *)
Definition op_set (k : string) (v : value) (f : pydict) : pydict := <[k := v]> f.

Definition op_inc (k : string) (n : Z) (f : pydict) : pydict :=
  match f !! k with
  | Some (VInt z) => <[k := VInt (z + n)]> f
  | None => <[k := VInt n]> f
  | Some _ => f
  end.

(** [.sort("created_at", -1)]: newest first.  The handlers write
    [created_at] as a datetime; a document without one sorts as null, below
    every date.  Documents with equal keys keep the collection's order. *)
Definition created_key (d : Doc) : option Z :=
  match doc_fields d !! "created_at" with
  | Some (VDate t) => Some t
  | _ => None
  end.

Definition key_le (a b : option Z) : bool :=
  match a, b with
  | None, _ => true
  | Some _, None => false
  | Some x, Some y => x <=? y
  end.

Fixpoint insert_desc (x : Doc) (l : list Doc) : list Doc :=
  match l with
  | [] => [x]
  | y :: l' =>
      if key_le (created_key y) (created_key x) then x :: y :: l'
      else y :: insert_desc x l'
  end.

Definition sort_created_desc (l : list Doc) : list Doc := foldr insert_desc [] l.

(** [.limit(n)] of a pymongo cursor: 0 means no limit, and a negative number
    bounds the result by its absolute value. *)
Definition limit {A} (n : Z) (l : list A) : list A :=
  if n =? 0 then l else take (Z.to_nat (Z.abs n)) l.

(* --------------------------------------------------------------------- *)
(* 3. The database and the handler monad                                  *)
(* --------------------------------------------------------------------- *)

(** The five collections [db["user"]] ... and the upload directory. *)
Record State := mkState {
  db_user : list Doc;
  db_video : list Doc;
  db_comment : list Doc;
  db_like : list Doc;
  db_subscription : list Doc;
  files : list (string * string)
}.

Definition set_user (f : list Doc -> list Doc) (st : State) : State :=
  mkState (f (db_user st)) (db_video st) (db_comment st) (db_like st)
          (db_subscription st) (files st).
Definition set_video (f : list Doc -> list Doc) (st : State) : State :=
  mkState (db_user st) (f (db_video st)) (db_comment st) (db_like st)
          (db_subscription st) (files st).
Definition set_comment (f : list Doc -> list Doc) (st : State) : State :=
  mkState (db_user st) (db_video st) (f (db_comment st)) (db_like st)
          (db_subscription st) (files st).
Definition set_like (f : list Doc -> list Doc) (st : State) : State :=
  mkState (db_user st) (db_video st) (db_comment st) (f (db_like st))
          (db_subscription st) (files st).
Definition set_subscription (f : list Doc -> list Doc) (st : State) : State :=
  mkState (db_user st) (db_video st) (db_comment st) (db_like st)
          (f (db_subscription st)) (files st).
Definition write_file (path content : string) (st : State) : State :=
  mkState (db_user st) (db_video st) (db_comment st) (db_like st)
          (db_subscription st) ((path, content) :: files st).

(** What a handler gives back: a value, or [raise HTTPException(...)]. *)
Inductive Res (A : Type) :=
  | Ok (a : A)
  | HTTPException (status_code : Z) (detail : string).
Arguments Ok {A} a.
Arguments HTTPException {A} status_code detail.

(** A handler runs against the database; what it wrote before raising stays
    written. *)
Definition M (A : Type) : Type := State -> Res A * State.

Definition ret {A} (a : A) : M A := fun st => (Ok a, st).
Definition raise {A} (code : Z) (msg : string) : M A := fun st => (HTTPException code msg, st).
Definition bind {A B} (m : M A) (k : A -> M B) : M B :=
  fun st =>
    match m st with
    | (Ok a, st') => k a st'
    | (HTTPException c msg, st') => (HTTPException c msg, st')
    end.
Definition gets {A} (f : State -> A) : M A := fun st => (Ok (f st), st).
Definition modify (f : State -> State) : M unit := fun st => (Ok tt, f st).

Notation "'let!' x ':=' m 'in' k" := (bind m (fun x => k))
  (at level 10, x name, m at level 100, k at level 200).
Notation "m '>>' k" := (bind m (fun _ => k))
  (at level 100, k at level 200, right associativity).

(** A response body whose fields are plain values, one embedded document or
    a list of documents. *)
Inductive json :=
  | JVal (v : value)
  | JObj (d : pydict)
  | JArr (l : list pydict).

Abbreviation body := (gmap string json).

(* --------------------------------------------------------------------- *)
(* 4. Library functions the handlers rely on                              *)
(* --------------------------------------------------------------------- *)

(** What main.py imports and does not define.  [ObjectId s] is [None] where
    bson's constructor raises; [pwd_hash] takes the salt passlib draws;
    [splitext] is [os.path.splitext(...)[1]]. *)
Class Runtime := {
  ObjectId : string -> option string;
  pwd_hash : string -> string -> string;
  pwd_verify : string -> string -> bool;
  isoformat : Z -> string;
  splitext : string -> string;
  path_join : string -> string -> string;
  split_comma : string -> list string;
  strip : string -> string;
  VIDEO_DIR : string;
  THUMB_DIR : string
}.

Section Handlers.
Context {RT : Runtime}.

(* -------------------- Helpers -------------------- *)

Definition hash_password (salt password : string) : string := pwd_hash salt password.

Definition verify_password (password hashed : string) : bool := pwd_verify password hashed.

(** [to_str_id]: copy the dict, rename [_id] to [id] as text, and print the
    datetimes.  (An [_id] is an ObjectId wherever this is called.) *)
Definition to_str_id (doc : pydict) : pydict :=
  if bool_decide (doc = ∅) then doc
  else
    let d := match doc !! "_id" with
             | Some (VOid o) => <["id" := VStr o]> (delete "_id" doc)
             | _ => doc
             end in
    (fun v => match v with VDate t => VStr (isoformat t) | _ => v end) <$> d.

Definition objid (id_str : string) : M string :=
  match ObjectId id_str with
  | Some o => ret o
  | None => raise 400 "Invalid id format"
  end.

(** [objid] applied to a field read from a document: text is parsed, an
    ObjectId is taken as it is, anything else makes the constructor raise. *)
Definition objid_of (v : value) : M string :=
  match v with
  | VStr s => objid s
  | VOid o => ret o
  | _ => raise 400 "Invalid id format"
  end.

(* -------------------- Auth -------------------- *)

Record RegisterRequest := mkRegisterRequest {
  reg_username : string; reg_email : string; reg_password : string }.

Record LoginRequest := mkLoginRequest { login_email : string; login_password : string }.

Definition register (payload : RegisterRequest) (salt new_id : string) (now1 now2 : Z)
  : M pydict :=
  let! by_email := gets (fun st => find_one [("email", VStr (reg_email payload))] (db_user st)) in
  match by_email with
  | Some _ => raise 400 "Email already in use"
  | None =>
  let! by_name := gets (fun st => find_one [("username", VStr (reg_username payload))] (db_user st)) in
  match by_name with
  | Some _ => raise 400 "Username already in use"
  | None =>
  let user_doc : pydict :=
    <["username" := VStr (reg_username payload)]>
    (<["email" := VStr (reg_email payload)]>
    (<["password_hash" := VStr (hash_password salt (reg_password payload))]>
    (<["avatar_url" := VNull]>
    (<["bio" := VNull]>
    (<["created_at" := VDate now1]>
    (<["updated_at" := VDate now2]>
    (<["subscriber_count" := VInt 0]> ∅))))))) in
  modify (set_user (insert_one new_id user_doc)) >>
  let user_doc := <["_id" := VOid new_id]> user_doc in
  let user_doc := delete "password_hash" user_doc in
  ret (to_str_id user_doc)
  end
  end.

(** [user.get("password_hash", "")] *)
Definition stored_hash (user : pydict) : string :=
  match user !! "password_hash" with
  | Some (VStr h) => h
  | _ => ""
  end.

Definition login (payload : LoginRequest) : M pydict :=
  let! user := gets (fun st => find_one [("email", VStr (login_email payload))] (db_user st)) in
  match user with
  | None => raise 400 "Invalid credentials"
  | Some user =>
      if negb (verify_password (login_password payload) (stored_hash (as_dict user)))
      then raise 400 "Invalid credentials"
      else ret (to_str_id (delete "password_hash" (as_dict user)))
  end.

(** The dependency behind every handler that takes [user_id]: the header
    value, absent when the request has no such header. *)
Definition get_current_user_id (x_user_id : option string) : M string :=
  match x_user_id with
  | None => raise 401 "Missing X-User-Id header"
  | Some x =>
      if String.eqb x "" then raise 401 "Missing X-User-Id header"
      else
        let! o := objid x in
        let! found := gets (fun st => find_one [("_id", VOid o)] (db_user st)) in
        match found with
        | None => raise 401 "Invalid user id"
        | Some _ => ret x
        end
  end.

(* -------------------- Video Upload & Feed -------------------- *)

Record UploadFile := mkUploadFile { filename : string; content : string }.

Definition opt_str (o : option string) : value :=
  match o with Some x => VStr x | None => VNull end.

(** [fid1], [fid2] are the [ObjectId()] drawn for the two file names and
    [new_id] the one the store gives the document. *)
Definition upload_video (title : string) (description tags : option string)
    (file : UploadFile) (thumbnail : option UploadFile) (x_user_id : option string)
    (fid1 fid2 new_id : string) (now1 now2 : Z) : M pydict :=
  let! user_id := get_current_user_id x_user_id in
  let ext := if String.eqb (splitext (filename file)) "" then ".mp4"
             else splitext (filename file) in
  let video_filename := fid1 +:+ ext in
  let video_path := path_join VIDEO_DIR video_filename in
  modify (write_file video_path (content file)) >>
  let video_url := "/static/videos/" +:+ video_filename in
  let! thumb_url :=
    match thumbnail with
    | Some th =>
        let t_ext := if String.eqb (splitext (filename th)) "" then ".jpg"
                     else splitext (filename th) in
        let thumb_filename := fid2 +:+ t_ext in
        let thumb_path := path_join THUMB_DIR thumb_filename in
        modify (write_file thumb_path (content th)) >>
        ret (VStr ("/static/thumbnails/" +:+ thumb_filename))
    | None => ret VNull
    end in
  let tag_list :=
    match tags with
    | Some t =>
        if String.eqb t "" then []
        else strip <$> List.filter (fun x => negb (String.eqb (strip x) "")) (split_comma t)
    | None => []
    end in
  let video_doc : pydict :=
    <["user_id" := VStr user_id]>
    (<["title" := VStr title]>
    (<["description" := opt_str description]>
    (<["tags" := VList tag_list]>
    (<["video_url" := VStr video_url]>
    (<["thumbnail_url" := thumb_url]>
    (<["views_count" := VInt 0]>
    (<["likes_count" := VInt 0]>
    (<["created_at" := VDate now1]>
    (<["updated_at" := VDate now2]> ∅))))))))) in
  modify (set_video (insert_one new_id video_doc)) >>
  ret (to_str_id (<["_id" := VOid new_id]> video_doc)).

(** [limit_] is the query parameter, [None] when the request leaves it out. *)
Definition list_videos (limit_ : option Z) : M (list pydict) :=
  let n := default 20 limit_ in
  let! cursor := gets (fun st => limit n (sort_created_desc (find [] (db_video st)))) in
  ret ((fun v => to_str_id (as_dict v)) <$> cursor).

Definition embed_user (user : option Doc) : json :=
  match user with
  | Some u => JObj (to_str_id (as_dict u))
  | None => JVal VNull
  end.

(** [find_one({"_id": objid(d["user_id"])}) if d.get("user_id") else None] *)
Definition lookup_author (d : Doc) : M (option Doc) :=
  if get_truthy "user_id" (as_dict d) then
    let! o := objid_of (default VNull (as_dict d !! "user_id")) in
    gets (fun st => find_one [("_id", VOid o)] (db_user st))
  else ret None.

Definition get_video (video_id : string) (now : Z) : M body :=
  let! o := objid video_id in
  let! v := gets (fun st => find_one [("_id", VOid o)] (db_video st)) in
  match v with
  | None => raise 404 "Video not found"
  | Some v =>
      modify (set_video (update_one [("_id", VOid (doc_id v))]
                (fun f => op_set "updated_at" (VDate now) (op_inc "views_count" 1 f)))) >>
      let! v := gets (fun st => find_one [("_id", VOid (doc_id v))] (db_video st)) in
      match v with
      | None => raise 500 "Internal Server Error"
      | Some v =>
          let! user := lookup_author v in
          let payload : body := JVal <$> to_str_id (as_dict v) in
          ret (<["channel" := embed_user user]> payload)
      end
  end.

(* -------------------- Comments -------------------- *)

Definition add_comment (video_id text : string) (x_user_id : option string)
    (new_id : string) (now : Z) : M pydict :=
  let! user_id := get_current_user_id x_user_id in
  let! o := objid video_id in
  let! v := gets (fun st => find_one [("_id", VOid o)] (db_video st)) in
  match v with
  | None => raise 404 "Video not found"
  | Some _ =>
      let comment_doc : pydict :=
        <["video_id" := VStr video_id]>
        (<["user_id" := VStr user_id]>
        (<["text" := VStr text]>
        (<["created_at" := VDate now]> ∅))) in
      modify (set_comment (insert_one new_id comment_doc)) >>
      ret (to_str_id (<["_id" := VOid new_id]> comment_doc))
  end.

Fixpoint join_comments (cursor : list Doc) : M (list body) :=
  match cursor with
  | [] => ret []
  | c :: rest =>
      let! user := lookup_author c in
      let item : body := <["user" := embed_user user]> (JVal <$> to_str_id (as_dict c)) in
      let! comments := join_comments rest in
      ret (item :: comments)
  end.

Definition list_comments (video_id : string) (limit_ : option Z) : M (list body) :=
  let n := default 50 limit_ in
  let! cursor := gets (fun st =>
    limit n (sort_created_desc (find [("video_id", VStr video_id)] (db_comment st)))) in
  join_comments cursor.

(* -------------------- Likes -------------------- *)

Record LikeRequest := mkLikeRequest { like_value : Z }.

Definition like_video (video_id : string) (payload : LikeRequest)
    (x_user_id : option string) (new_id : string) (now : Z) : M pydict :=
  let! user_id := get_current_user_id x_user_id in
  let! o := objid video_id in
  let! v := gets (fun st => find_one [("_id", VOid o)] (db_video st)) in
  match v with
  | None => raise 404 "Video not found"
  | Some _ =>
      let! existing := gets (fun st =>
        find_one [("video_id", VStr video_id); ("user_id", VStr user_id)] (db_like st)) in
      match existing with
      | Some existing =>
          if bool_decide (default (VInt 1) (as_dict existing !! "value")
                          = VInt (like_value payload))
          then modify (set_like (delete_one [("_id", VOid (doc_id existing))]))
          else modify (set_like (update_one [("_id", VOid (doc_id existing))]
                                   (op_set "value" (VInt (like_value payload)))))
      | None =>
          modify (set_like (insert_one new_id
            (<["video_id" := VStr video_id]>
            (<["user_id" := VStr user_id]>
            (<["value" := VInt (like_value payload)]>
            (<["created_at" := VDate now]> ∅))))))
      end >>
      let! likes_count := gets (fun st =>
        count_documents [("video_id", VStr video_id); ("value", VInt 1)] (db_like st)) in
      let! o := objid video_id in
      modify (set_video (update_one [("_id", VOid o)] (op_set "likes_count" (VInt likes_count)))) >>
      ret (<["video_id" := VStr video_id]> (<["likes_count" := VInt likes_count]> ∅))
  end.

(* -------------------- Subscriptions & Channel -------------------- *)

Definition subscribe_channel (channel_id : string) (x_user_id : option string)
    (new_id : string) (now : Z) : M pydict :=
  let! user_id := get_current_user_id x_user_id in
  if String.eqb channel_id user_id then raise 400 "Cannot subscribe to yourself"
  else
    let! o := objid channel_id in
    let! ch := gets (fun st => find_one [("_id", VOid o)] (db_user st)) in
    match ch with
    | None => raise 404 "Channel not found"
    | Some _ =>
        let! existing := gets (fun st =>
          find_one [("channel_id", VStr channel_id); ("subscriber_id", VStr user_id)]
                   (db_subscription st)) in
        match existing with
        | Some existing =>
            modify (set_subscription (delete_one [("_id", VOid (doc_id existing))]))
        | None =>
            modify (set_subscription (insert_one new_id
              (<["channel_id" := VStr channel_id]>
              (<["subscriber_id" := VStr user_id]>
              (<["created_at" := VDate now]> ∅)))))
        end >>
        let! sub_count := gets (fun st =>
          count_documents [("channel_id", VStr channel_id)] (db_subscription st)) in
        let! o := objid channel_id in
        modify (set_user (update_one [("_id", VOid o)]
                            (op_set "subscriber_count" (VInt sub_count)))) >>
        ret (<["channel_id" := VStr channel_id]> (<["subscriber_count" := VInt sub_count]> ∅))
    end.

Definition get_channel (channel_id : string) : M body :=
  let! o := objid channel_id in
  let! user := gets (fun st => find_one [("_id", VOid o)] (db_user st)) in
  match user with
  | None => raise 404 "Channel not found"
  | Some user =>
      let! sub_count := gets (fun st =>
        count_documents [("channel_id", VStr channel_id)] (db_subscription st)) in
      let! videos := gets (fun st =>
        (fun v => to_str_id (as_dict v)) <$>
          sort_created_desc (find [("user_id", VStr channel_id)] (db_video st))) in
      let payload : body := JVal <$> to_str_id (as_dict user) in
      let payload := <["subscriber_count" := JVal (VInt sub_count)]> payload in
      ret (<["videos" := JArr videos]> payload)
  end.

(* -------------------- Simple Search/Feed -------------------- *)

Definition feed (limit_ : option Z) : M (list pydict) :=
  let n := default 20 limit_ in
  let! videos := gets (fun st =>
    (fun v => to_str_id (as_dict v)) <$> limit n (sort_created_desc (find [] (db_video st)))) in
  ret videos.

End Handlers.

(* --------------------------------------------------------------------- *)
(* 5. A runtime to run the handlers on examples                           *)
(* --------------------------------------------------------------------- *)

Module Sample.

Definition is_hex (c : ascii) : bool :=
  let n := nat_of_ascii c in
  ((48 <=? n) && (n <=? 57) || (97 <=? n) && (n <=? 102) || (65 <=? n) && (n <=? 70))%nat.

Definition lower (c : ascii) : ascii :=
  let n := nat_of_ascii c in
  if ((65 <=? n) && (n <=? 90))%nat then ascii_of_nat (n + 32) else c.

Fixpoint map_string (f : ascii -> ascii) (s : string) : string :=
  match s with
  | EmptyString => EmptyString
  | String c r => String (f c) (map_string f r)
  end.

Fixpoint all_string (f : ascii -> bool) (s : string) : bool :=
  match s with
  | EmptyString => true
  | String c r => f c && all_string f r
  end.

(** Twenty-four hexadecimal digits name an ObjectId, in either case. *)
Definition parse_oid (s : string) : option string :=
  if ((String.length s =? 24)%nat && all_string is_hex s) then Some (map_string lower s)
  else None.

(** A stand-in for the password library: salted text that verifies against
    the password it was made from. *)
Definition toy_hash (salt password : string) : string := salt +:+ "$" +:+ password.

Fixpoint after_dollar (h : string) : string :=
  match h with
  | EmptyString => EmptyString
  | String c r => if Ascii.eqb c "$" then r else after_dollar r
  end.

Definition toy_verify (password hashed : string) : bool :=
  String.eqb (after_dollar hashed) password.

#[export] Instance runtime : Runtime := {|
  ObjectId := parse_oid;
  pwd_hash := toy_hash;
  pwd_verify := toy_verify;
  isoformat := fun t => pretty t;
  splitext := fun _ => "";
  path_join := fun a b => a +:+ "/" +:+ b;
  split_comma := fun s => [s];
  strip := fun s => s;
  VIDEO_DIR := "uploads/videos";
  THUMB_DIR := "uploads/thumbnails"
|}.

Definition empty_db : State := mkState [] [] [] [] [] [].

Definition alice_id := "aaaaaaaaaaaaaaaaaaaaaaaa".
Definition bob_id := "bbbbbbbbbbbbbbbbbbbbbbbb".
Definition video1_id := "cccccccccccccccccccccccc".

(** Alice and Bob register, Alice uploads a video. *)
Definition st_users : State :=
  (register (mkRegisterRequest "bob" "bob@x.com" "pw2") "s2" bob_id 2 2
     (register (mkRegisterRequest "alice" "alice@x.com" "pw1") "s1" alice_id 1 1 empty_db).2).2.

Definition st_video : State :=
  (upload_video "first" None None (mkUploadFile "a.mp4" "bytes") None (Some alice_id)
     "111111111111111111111111" "222222222222222222222222" video1_id 3 3 st_users).2.

End Sample.

(* --------------------------------------------------------------------- *)
(* 6. Facts about the collection operations                               *)
(* --------------------------------------------------------------------- *)

Section StoreFacts.

Lemma as_dict_id (d : Doc) : as_dict d !! "_id" = Some (VOid (doc_id d)).
Proof. unfold as_dict. apply lookup_insert_eq. Qed.

Lemma as_dict_field (d : Doc) (k : string) :
  k ≠ "_id" → as_dict d !! k = doc_fields d !! k.
Proof. intros Hk. unfold as_dict. by rewrite lookup_insert_ne. Qed.

(** A query on [_id] alone looks at nothing but the identifier. *)
Lemma matches_id (i : string) (d : Doc) :
  matches [("_id", VOid i)] d = bool_decide (doc_id d = i).
Proof.
  unfold matches. simpl. rewrite as_dict_id, andb_true_r.
  apply bool_decide_ext. split; [congruence | by intros ->].
Qed.

Lemma matches_id_upd (i : string) (d : Doc) (f : pydict → pydict) :
  matches [("_id", VOid i)] (mkDoc (doc_id d) (f (doc_fields d)))
  = matches [("_id", VOid i)] d.
Proof. by rewrite !matches_id. Qed.

Lemma find_one_Some (q : query) (l : list Doc) (e : Doc) :
  find_one q l = Some e →
  ∃ l1 l2, l = l1 ++ e :: l2 ∧ matches q e = true
           ∧ Forall (fun d => matches q d = false) l1.
Proof.
  induction l as [|d l IH]; simpl; [done|].
  destruct (matches q d) eqn:Hd.
  - intros [= ->]. exists [], l. by repeat split.
  - intros (l1 & l2 & -> & He & Hl1)%IH.
    exists (d :: l1), l2. repeat split; [done|]. by constructor.
Qed.

Lemma find_one_None (q : query) (l : list Doc) :
  find_one q l = None ↔ Forall (fun d => matches q d = false) l.
Proof.
  induction l as [|d l IH]; simpl; [by split|].
  destruct (matches q d) eqn:Hd.
  - split; [done|]. intros H. apply Forall_cons in H as [H _]. congruence.
  - rewrite IH. split; [by constructor | by intros [_ ?]%Forall_cons].
Qed.

Lemma find_one_first (q : query) (l1 l2 : list Doc) (e : Doc) :
  Forall (fun d => matches q d = false) l1 → matches q e = true →
  find_one q (l1 ++ e :: l2) = Some e.
Proof.
  induction 1 as [|d l1 Hd _ IH]; simpl; intros He; [by rewrite He|].
  rewrite Hd. by apply IH.
Qed.

Lemma update_one_first (q : query) (f : pydict → pydict) (l1 l2 : list Doc) (e : Doc) :
  Forall (fun d => matches q d = false) l1 → matches q e = true →
  update_one q f (l1 ++ e :: l2) = l1 ++ mkDoc (doc_id e) (f (doc_fields e)) :: l2.
Proof.
  induction 1 as [|d l1 Hd _ IH]; simpl; intros He; [by rewrite He|].
  rewrite Hd. f_equal. by apply IH.
Qed.

Lemma delete_one_first (q : query) (l1 l2 : list Doc) (e : Doc) :
  Forall (fun d => matches q d = false) l1 → matches q e = true →
  delete_one q (l1 ++ e :: l2) = l1 ++ l2.
Proof.
  induction 1 as [|d l1 Hd _ IH]; simpl; intros He; [by rewrite He|].
  rewrite Hd. f_equal. by apply IH.
Qed.

Lemma update_one_none (q : query) (f : pydict → pydict) (l : list Doc) :
  Forall (fun d => matches q d = false) l → update_one q f l = l.
Proof. induction 1 as [|d l Hd _ IH]; simpl; [done|]. by rewrite Hd, IH. Qed.

(** Reading back the document that [update_one] has just written. *)
Lemma find_one_update_one (i : string) (f : pydict → pydict) (l : list Doc) (d : Doc) :
  find_one [("_id", VOid i)] l = Some d →
  find_one [("_id", VOid i)] (update_one [("_id", VOid i)] f l)
  = Some (mkDoc (doc_id d) (f (doc_fields d))).
Proof.
  intros (l1 & l2 & -> & Hd & Hl1)%find_one_Some.
  rewrite update_one_first by done.
  apply find_one_first; [done|]. by rewrite matches_id_upd.
Qed.

(** When identifiers are not repeated, only the document itself answers to
    its identifier. *)
Lemma unique_id_before (l1 l2 : list Doc) (e : Doc) :
  NoDup (doc_id <$> (l1 ++ e :: l2)) →
  Forall (fun d => matches [("_id", VOid (doc_id e))] d = false) l1.
Proof.
  rewrite fmap_app, fmap_cons. intros Hnd.
  apply NoDup_app in Hnd as (_ & Hdis & _).
  apply Forall_forall. intros d Hd. rewrite matches_id.
  apply bool_decide_eq_false. intros Heq.
  apply (Hdis (doc_id d)); [by apply list_elem_of_fmap_2|].
  rewrite Heq. apply list_elem_of_here.
Qed.

Lemma matches_self_id (e : Doc) : matches [("_id", VOid (doc_id e))] e = true.
Proof. rewrite matches_id. by apply bool_decide_eq_true. Qed.

Lemma count_documents_app (q : query) (l1 l2 : list Doc) :
  count_documents q (l1 ++ l2) = count_documents q l1 + count_documents q l2.
Proof. unfold count_documents. rewrite filter_app, length_app. lia. Qed.

Lemma count_documents_cons (q : query) (d : Doc) (l : list Doc) :
  count_documents q (d :: l)
  = (if matches q d then 1 else 0) + count_documents q l.
Proof.
  unfold count_documents. rewrite filter_cons.
  destruct (matches q d) eqn:Hd.
  - rewrite decide_True by done. simpl length. lia.
  - rewrite decide_False by congruence. lia.
Qed.

Lemma find_nil_find_one (q : query) (l : list Doc) :
  find q l = [] ↔ find_one q l = None.
Proof.
  rewrite find_one_None. unfold find. induction l as [|d l IH]; [done|].
  rewrite filter_cons. destruct (matches q d) eqn:Hd.
  - rewrite decide_True by done. split; [done|].
    intros [? _]%Forall_cons. congruence.
  - rewrite decide_False by congruence. rewrite IH.
    split; [by constructor | by intros [_ ?]%Forall_cons].
Qed.

End StoreFacts.

(* --------------------------------------------------------------------- *)
(* 7. Facts about the handlers                                            *)
(* --------------------------------------------------------------------- *)

Section HandlerFacts.
Context {RT : Runtime}.

(** The header [u] passes the identity check in [st]. *)
Definition authenticated (st : State) (u : string) : Prop :=
  get_current_user_id (Some u) st = (Ok u, st).

(** The identity check only reads. *)
Lemma get_current_user_id_state (x : option string) (st : State) :
  (get_current_user_id x st).2 = st.
Proof.
  unfold get_current_user_id. destruct x as [x|]; [|done].
  destruct (String.eqb x ""); [done|].
  unfold bind, objid. destruct (ObjectId x); [|done]. simpl.
  by destruct (find_one _ _).
Qed.

Lemma get_current_user_id_Ok (x : option string) (st st' : State) (u : string) :
  get_current_user_id x st = (Ok u, st') →
  x = Some u ∧ st' = st ∧ u ≠ "" ∧
  ∃ o d, ObjectId u = Some o ∧ find_one [("_id", VOid o)] (db_user st) = Some d.
Proof.
  unfold get_current_user_id. destruct x as [x|]; [|done].
  destruct (String.eqb x "") eqn:Hx; [done|].
  apply String.eqb_neq in Hx.
  unfold bind, objid. destruct (ObjectId x) as [o|] eqn:Ho; [|done]. simpl.
  destruct (find_one _ _) as [d|] eqn:Hd; [|done].
  intros [= <- <-]. repeat split; [done|]. by exists o, d.
Qed.


(** The Like row a first press writes. *)
Definition like_doc (v u : string) (w now : Z) : pydict :=
  <["video_id" := VStr v]>
  (<["user_id" := VStr u]>
  (<["value" := VInt w]>
  (<["created_at" := VDate now]> ∅))).

Definition like_key (v u : string) : query :=
  [("video_id", VStr v); ("user_id", VStr u)].

Definition liked (v : string) : query :=
  [("video_id", VStr v); ("value", VInt 1)].

(** [existing.get("value", 1)] *)
Definition row_value (e : Doc) : value := default (VInt 1) (as_dict e !! "value").

(** The Like collection after [like_video]'s insert, delete or update. *)
Definition likes_after (v u : string) (w : Z) (new_id : string) (now : Z)
    (likes : list Doc) : list Doc :=
  match find_one (like_key v u) likes with
  | Some e =>
      if bool_decide (row_value e = VInt w)
      then delete_one [("_id", VOid (doc_id e))] likes
      else update_one [("_id", VOid (doc_id e))] (op_set "value" (VInt w)) likes
  | None => insert_one new_id (like_doc v u w now) likes
  end.

Definition like_response (v : string) (n : Z) : pydict :=
  <["video_id" := VStr v]> (<["likes_count" := VInt n]> ∅).

(** What [like_video] does once the caller is known and the video exists. *)
Lemma like_video_run (st : State) (v o u new_id : string) (vd : Doc) (w now : Z) :
  authenticated st u → ObjectId v = Some o →
  find_one [("_id", VOid o)] (db_video st) = Some vd →
  like_video v (mkLikeRequest w) (Some u) new_id now st =
    (Ok (like_response v (count_documents (liked v)
                            (likes_after v u w new_id now (db_like st)))),
     set_video (update_one [("_id", VOid o)]
                  (op_set "likes_count"
                     (VInt (count_documents (liked v)
                              (likes_after v u w new_id now (db_like st))))))
       (set_like (fun _ => likes_after v u w new_id now (db_like st)) st)).
Proof.
  intros Hauth Ho Hvd. unfold like_video, bind at 1. rewrite Hauth.
  unfold bind at 1, objid at 1. rewrite Ho. cbn -[find_one count_documents].
  unfold bind at 1, gets at 1. rewrite Hvd. unfold likes_after, like_key, row_value.
  unfold bind at 1, bind at 1, gets at 1.
  destruct (find_one _ (db_like st)) as [e|] eqn:He.
  - cbn [like_value]. destruct (bool_decide _) eqn:Hval;
      unfold modify, bind, gets, objid, ret; cbn -[find_one count_documents];
      rewrite Ho; reflexivity.
  - unfold modify, bind, gets, objid, ret; cbn -[find_one count_documents].
    rewrite Ho. reflexivity.
Qed.


End HandlerFacts.

(* --------------------------------------------------------------------- *)
(* 8. Likes                                                               *)
(* --------------------------------------------------------------------- *)

Section Likes.
Context {RT : Runtime}.

Lemma matches_liked_new (v u new_id : string) (w now : Z) :
  matches (liked v) (mkDoc new_id (like_doc v u w now)) = bool_decide (w = 1).
Proof.
  unfold matches, liked, as_dict, like_doc. cbn [forallb fst snd doc_id doc_fields].
  rewrite lookup_insert_ne, lookup_insert_eq by done.
  rewrite bool_decide_eq_true_2 by done.
  do 3 (rewrite lookup_insert_ne by done). rewrite lookup_insert_eq.
  rewrite andb_true_r. cbn [andb].
  apply bool_decide_ext. split; [congruence | by intros ->].
Qed.


(* Shapes of the Like collection around the caller's row. *)






Lemma count_around (q : query) (l1 l2 : list Doc) (e : Doc) :
  count_documents q (l1 ++ e :: l2)
  = count_documents q (l1 ++ l2) + (if matches q e then 1 else 0).
Proof. rewrite !count_documents_app, count_documents_cons. lia. Qed.

Lemma matches_key_set_value (v u i : string) (x : value) (f : pydict) :
  matches (like_key v u) (mkDoc i (op_set "value" x f))
  = matches (like_key v u) (mkDoc i f).
Proof.
  unfold matches, like_key, as_dict, op_set. cbn [forallb fst snd doc_id doc_fields].
  by rewrite !(lookup_insert_ne _ "_id"), !(lookup_insert_ne _ "value") by done.
Qed.

Lemma matches_liked_row (v u : string) (e : Doc) :
  matches (like_key v u) e = true →
  matches (liked v) e = bool_decide (as_dict e !! "value" = Some (VInt 1)).
Proof.
  unfold matches, like_key, liked. cbn [forallb fst snd].
  intros [Hv _]%andb_true_iff. by rewrite Hv, andb_true_r.
Qed.

Lemma matches_liked_set_value (v u i : string) (w : Z) (f : pydict) :
  matches (like_key v u) (mkDoc i f) = true →
  matches (liked v) (mkDoc i (op_set "value" (VInt w) f)) = bool_decide (w = 1).
Proof.
  intros Hk. rewrite (matches_liked_row v u) by by rewrite matches_key_set_value.
  unfold as_dict, op_set. cbn [doc_id doc_fields].
  rewrite lookup_insert_ne, lookup_insert_eq by done.
  apply bool_decide_ext. split; [congruence | by intros ->].
Qed.

Lemma likes_after_new (v u new_id : string) (w now : Z) (l : list Doc) :
  find (like_key v u) l = [] →
  likes_after v u w new_id now l = l ++ [mkDoc new_id (like_doc v u w now)].
Proof. intros H%find_nil_find_one. unfold likes_after. by rewrite H. Qed.

Lemma likes_after_same (v u new_id : string) (w now : Z) (l1 l2 : list Doc) (e : Doc) :
  NoDup (doc_id <$> (l1 ++ e :: l2)) →
  Forall (fun d => matches (like_key v u) d = false) l1 →
  matches (like_key v u) e = true → row_value e = VInt w →
  likes_after v u w new_id now (l1 ++ e :: l2) = l1 ++ l2.
Proof.
  intros Hnd H1 He Hval. unfold likes_after.
  rewrite find_one_first by done. rewrite bool_decide_eq_true_2 by done.
  apply delete_one_first; [by eapply unique_id_before | apply matches_self_id].
Qed.

Lemma likes_after_other (v u new_id : string) (w now : Z) (l1 l2 : list Doc) (e : Doc) :
  NoDup (doc_id <$> (l1 ++ e :: l2)) →
  Forall (fun d => matches (like_key v u) d = false) l1 →
  matches (like_key v u) e = true → row_value e ≠ VInt w →
  likes_after v u w new_id now (l1 ++ e :: l2)
  = l1 ++ mkDoc (doc_id e) (op_set "value" (VInt w) (doc_fields e)) :: l2.
Proof.
  intros Hnd H1 He Hval. unfold likes_after.
  rewrite find_one_first by done. rewrite bool_decide_eq_false_2 by done.
  apply update_one_first; [by eapply unique_id_before | apply matches_self_id].
Qed.












End Likes.

(* --------------------------------------------------------------------- *)
(* 9. Subscriptions                                                       *)
(* --------------------------------------------------------------------- *)

Section Subscriptions.
Context {RT : Runtime}.

Definition sub_doc (c u : string) (now : Z) : pydict :=
  <["channel_id" := VStr c]>
  (<["subscriber_id" := VStr u]>
  (<["created_at" := VDate now]> ∅)).

Definition sub_key (c u : string) : query :=
  [("channel_id", VStr c); ("subscriber_id", VStr u)].

Definition subs_of (c : string) : query := [("channel_id", VStr c)].

(** The Subscription collection after [subscribe_channel]'s delete or insert. *)
Definition subs_after (c u new_id : string) (now : Z) (subs : list Doc) : list Doc :=
  match find_one (sub_key c u) subs with
  | Some e => delete_one [("_id", VOid (doc_id e))] subs
  | None => insert_one new_id (sub_doc c u now) subs
  end.

Definition sub_response (c : string) (n : Z) : pydict :=
  <["channel_id" := VStr c]> (<["subscriber_count" := VInt n]> ∅).

(** What [subscribe_channel] does once the caller is known, the channel is
    another user's id and that user exists. *)
Lemma subscribe_channel_run (st : State) (c o u new_id : string) (cd : Doc) (now : Z) :
  authenticated st u → c ≠ u → ObjectId c = Some o →
  find_one [("_id", VOid o)] (db_user st) = Some cd →
  subscribe_channel c (Some u) new_id now st =
    (Ok (sub_response c (count_documents (subs_of c)
                           (subs_after c u new_id now (db_subscription st)))),
     set_user (update_one [("_id", VOid o)]
                 (op_set "subscriber_count"
                    (VInt (count_documents (subs_of c)
                             (subs_after c u new_id now (db_subscription st))))))
       (set_subscription (fun _ => subs_after c u new_id now (db_subscription st)) st)).
Proof.
  intros Hauth Hne Ho Hcd. unfold subscribe_channel, bind at 1. rewrite Hauth.
  apply String.eqb_neq in Hne. rewrite Hne.
  unfold bind at 1, objid at 1. rewrite Ho. cbn -[find_one count_documents].
  unfold bind at 1, gets at 1. rewrite Hcd. unfold subs_after, sub_key.
  unfold bind at 1, bind at 1, gets at 1.
  destruct (find_one _ (db_subscription st)) as [e|] eqn:He;
    unfold modify, bind, gets, objid, ret; cbn -[find_one count_documents];
    rewrite Ho; reflexivity.
Qed.




Lemma matches_subs_of_new (c u new_id : string) (now : Z) :
  matches (subs_of c) (mkDoc new_id (sub_doc c u now)) = true.
Proof.
  unfold matches, subs_of, as_dict, sub_doc. cbn [forallb fst snd doc_id doc_fields].
  rewrite lookup_insert_ne, lookup_insert_eq by done.
  by rewrite bool_decide_eq_true_2.
Qed.




End Subscriptions.

(* --------------------------------------------------------------------- *)
(* 10. Identity and login                                                 *)
(* --------------------------------------------------------------------- *)

(** The four routes that take [user_id = Depends(get_current_user_id)], with
    what the request carries and what the environment draws for it. *)
Inductive MutatingRequest :=
  | PostVideo (title : string) (description tags : option string)
      (file : UploadFile) (thumbnail : option UploadFile)
      (fid1 fid2 new_id : string) (now1 now2 : Z)
  | PostComment (video_id text new_id : string) (now : Z)
  | PostLike (video_id : string) (payload : LikeRequest) (new_id : string) (now : Z)
  | PostSubscribe (channel_id new_id : string) (now : Z).

Section Identity.
Context {RT : Runtime}.

Definition dispatch (r : MutatingRequest) (x_user_id : option string) : M pydict :=
  match r with
  | PostVideo title description tags file thumbnail fid1 fid2 new_id now1 now2 =>
      upload_video title description tags file thumbnail x_user_id fid1 fid2 new_id now1 now2
  | PostComment video_id text new_id now => add_comment video_id text x_user_id new_id now
  | PostLike video_id payload new_id now => like_video video_id payload x_user_id new_id now
  | PostSubscribe channel_id new_id now => subscribe_channel channel_id x_user_id new_id now
  end.

(** Whatever the identity check raises is the whole response, and nothing
    has been written. *)
Lemma dispatch_identity_failure (r : MutatingRequest) (x : option string) (st : State)
    (code : Z) (msg : string) :
  (get_current_user_id x st).1 = HTTPException code msg →
  dispatch r x st = (HTTPException code msg, st).
Proof.
  intros Hfail. pose proof (get_current_user_id_state x st) as Hst.
  destruct (get_current_user_id x st) as [res st1] eqn:Hid. simpl in Hfail, Hst. subst.
  destruct r; unfold dispatch, upload_video, add_comment, like_video, subscribe_channel;
    unfold bind at 1; by rewrite Hid.
Qed.

Lemma identity_missing (x : option string) (st : State) :
  x = None ∨ x = Some "" →
  (get_current_user_id x st).1 = HTTPException 401 "Missing X-User-Id header".
Proof. by intros [-> | ->]. Qed.

Lemma identity_unknown (x o : string) (st : State) :
  x ≠ "" → ObjectId x = Some o → find_one [("_id", VOid o)] (db_user st) = None →
  (get_current_user_id (Some x) st).1 = HTTPException 401 "Invalid user id".
Proof.
  intros Hx%String.eqb_neq Ho Hnone. unfold get_current_user_id. rewrite Hx.
  unfold bind, objid. rewrite Ho. simpl. by rewrite Hnone.
Qed.

Lemma identity_malformed (x : string) (st : State) :
  x ≠ "" → ObjectId x = None →
  (get_current_user_id (Some x) st).1 = HTTPException 400 "Invalid id format".
Proof.
  intros Hx%String.eqb_neq Ho. unfold get_current_user_id. rewrite Hx.
  unfold bind, objid. by rewrite Ho.
Qed.

(** C2 (as amended).  On each of the four mutating routes: a request without
    the identity header, or with an empty one, is answered 401; a header
    that parses as an id but names no stored user is answered 401; a header
    that does not parse as an id is answered 400 "Invalid id format".  In
    all three cases the database and the upload directory are left as they
    were. *)
Theorem unidentified_request_rejected (r : MutatingRequest) (st : State) :
  (∀ x, x = None ∨ x = Some "" →
        dispatch r x st = (HTTPException 401 "Missing X-User-Id header", st))
  ∧ (∀ x o, x ≠ "" → ObjectId x = Some o →
            find_one [("_id", VOid o)] (db_user st) = None →
            dispatch r (Some x) st = (HTTPException 401 "Invalid user id", st))
  ∧ (∀ x, x ≠ "" → ObjectId x = None →
          dispatch r (Some x) st = (HTTPException 400 "Invalid id format", st)).
Proof.
  repeat split; intros.
  - by apply dispatch_identity_failure, identity_missing.
  - by eapply dispatch_identity_failure, identity_unknown.
  - by apply dispatch_identity_failure, identity_malformed.
Qed.


End Identity.

(* --------------------------------------------------------------------- *)
(* 11. Listings                                                           *)
(* --------------------------------------------------------------------- *)

Section Listings.
Context {RT : Runtime}.

(** [a] may stand before [b] in a newest-first listing. *)
Definition not_older (a b : Doc) : Prop :=
  key_le (created_key b) (created_key a) = true.

Lemma key_le_total (a b : option Z) : key_le a b = false → key_le b a = true.
Proof.
  destruct a as [x|], b as [y|]; simpl; try done.
  intros H%Z.leb_gt. apply Z.leb_le. lia.
Qed.

Lemma key_le_trans (a b c : option Z) :
  key_le a b = true → key_le b c = true → key_le a c = true.
Proof.
  destruct a as [x|], b as [y|], c as [z|]; simpl; try done.
  intros H1%Z.leb_le H2%Z.leb_le. apply Z.leb_le. lia.
Qed.

Lemma insert_desc_elem (x d : Doc) (l : list Doc) :
  d ∈ insert_desc x l → d = x ∨ d ∈ l.
Proof.
  induction l as [|y l IH]; simpl.
  - intros ->%list_elem_of_singleton. by left.
  - destruct (key_le _ _).
    + intros [->|H]%elem_of_cons; [by left | by right].
    + intros [->|H]%elem_of_cons; [right; apply list_elem_of_here|].
      destruct (IH H) as [->|?]; [by left|]. right. by apply list_elem_of_further.
Qed.

Lemma insert_desc_length (x : Doc) (l : list Doc) :
  length (insert_desc x l) = S (length l).
Proof.
  induction l as [|y l IH]; simpl; [done|].
  destruct (key_le _ _); simpl; by rewrite ?IH.
Qed.

Lemma insert_desc_sorted (x : Doc) (l : list Doc) :
  StronglySorted not_older l → StronglySorted not_older (insert_desc x l).
Proof.
  induction 1 as [|y l Hl IH Hy]; simpl.
  - repeat constructor.
  - destruct (key_le (created_key y) (created_key x)) eqn:Hyx.
    + constructor; [by constructor|]. constructor; [done|].
      eapply Forall_impl; [exact Hy|]. intros z Hz. unfold not_older in *.
      by eapply key_le_trans.
    + constructor; [done|]. apply Forall_forall. intros z Hz.
      apply insert_desc_elem in Hz as [->|Hz].
      * by apply key_le_total.
      * by eapply Forall_forall in Hy.
Qed.

Lemma sort_created_desc_sorted (l : list Doc) :
  StronglySorted not_older (sort_created_desc l).
Proof.
  induction l as [|x l IH]; simpl; [constructor|]. by apply insert_desc_sorted.
Qed.

Lemma sort_created_desc_elem (d : Doc) (l : list Doc) :
  d ∈ sort_created_desc l → d ∈ l.
Proof.
  induction l as [|x l IH]; simpl; [done|].
  intros [->|H]%insert_desc_elem; [apply list_elem_of_here|].
  by apply list_elem_of_further, IH.
Qed.

Lemma sort_created_desc_length (l : list Doc) :
  length (sort_created_desc l) = length l.
Proof. induction l as [|x l IH]; simpl; [done|]. by rewrite insert_desc_length, IH. Qed.

Lemma take_sorted (n : nat) (l : list Doc) :
  StronglySorted not_older l → StronglySorted not_older (take n l).
Proof.
  intros Hl. revert n. induction Hl as [|y l Hl IH Hy]; intros [|n]; simpl;
    try constructor; [done|]. by apply Forall_take.
Qed.

Lemma limit_sorted (n : Z) (l : list Doc) :
  StronglySorted not_older l → StronglySorted not_older (limit n l).
Proof. intros Hl. unfold limit. destruct (n =? 0); [done|]. by apply take_sorted. Qed.

Lemma limit_elem (n : Z) (d : Doc) (l : list Doc) : d ∈ limit n l → d ∈ l.
Proof.
  unfold limit. destruct (n =? 0); [done|].
  intros (i & Hi & _)%elem_of_take. by eapply list_elem_of_lookup_2.
Qed.

Lemma limit_length_pos {A} (n : Z) (l : list A) :
  0 < n → Z.of_nat (length (limit n l)) ≤ n.
Proof.
  intros Hn. unfold limit. rewrite (proj2 (Z.eqb_neq n 0)) by lia.
  rewrite length_take. lia.
Qed.


Lemma find_all (l : list Doc) : find [] l = l.
Proof.
  unfold find. induction l as [|d l IH]; [done|].
  rewrite filter_cons, decide_True by done. by rewrite IH.
Qed.

(** C9 (as amended).  [list_videos] and [feed] give the same answer and
    change nothing: the stored videos, newest first (each one created no
    earlier than all that follow it), rendered by [to_str_id].  When the
    limit in force (the caller's, or 20 when the request has none) is
    positive, at most that many videos are returned. *)
Theorem listings_bounded_and_newest_first (st : State) (limit_ : option Z) :
  ∃ docs : list Doc,
    list_videos limit_ st = (Ok ((fun v => to_str_id (as_dict v)) <$> docs), st)
    ∧ feed limit_ st = (Ok ((fun v => to_str_id (as_dict v)) <$> docs), st)
    ∧ (∀ d, d ∈ docs → d ∈ db_video st)
    ∧ StronglySorted not_older docs
    ∧ (0 < default 20 limit_ →
       Z.of_nat (length ((fun v => to_str_id (as_dict v)) <$> docs)) ≤ default 20 limit_).
Proof.
  exists (limit (default 20 limit_) (sort_created_desc (find [] (db_video st)))).
  split; [reflexivity|]. split; [reflexivity|]. split; [|split].
  - intros d Hd%limit_elem%sort_created_desc_elem. by rewrite find_all in Hd.
  - apply limit_sorted, sort_created_desc_sorted.
  - intros Hpos. rewrite length_fmap. by apply limit_length_pos.
Qed.

End Listings.

(* --------------------------------------------------------------------- *)
(* 12. Embedded profiles                                                  *)
(* --------------------------------------------------------------------- *)

Section Profiles.
Context {RT : Runtime}.

(** [to_str_id] renames [_id] and prints dates; every other field, the
    password hash among them, goes through as it is. *)
Lemma to_str_id_keeps_password_hash (d : Doc) (h : string) :
  doc_fields d !! "password_hash" = Some (VStr h) →
  to_str_id (as_dict d) !! "password_hash" = Some (VStr h).
Proof.
  intros Hh. unfold to_str_id.
  assert (as_dict d !! "password_hash" = Some (VStr h)) as Hd
    by by rewrite as_dict_field.
  destruct (bool_decide (as_dict d = ∅)); [done|].
  rewrite as_dict_id, lookup_fmap, lookup_insert_ne, lookup_delete_ne by done.
  by rewrite Hd.
Qed.

Lemma embed_user_keeps_password_hash (d : Doc) (h : string) :
  doc_fields d !! "password_hash" = Some (VStr h) →
  ∃ profile, embed_user (Some d) = JObj profile
             ∧ profile !! "password_hash" = Some (VStr h).
Proof. intros Hh. eexists. split; [done|]. by apply to_str_id_keeps_password_hash. Qed.

End Profiles.

(* --------------------------------------------------------------------- *)
(* 13. The properties on a sample database                                *)
(* --------------------------------------------------------------------- *)

Module Examples.
Import Sample.

Ltac by_computation := apply (bool_decide_unpack _); vm_compute; exact I.
Ltac run := vm_compute; reflexivity.

Definition comment1_id := "dddddddddddddddddddddddd".
Definition like1_id := "eeeeeeeeeeeeeeeeeeeeeeee".
Definition sub1_id := "abababababababababababab".
Definition video2_id := "121212121212121212121212".
Definition nobody_id := "999999999999999999999999".

(** Bob comments on Alice's video. *)
Definition st_comment : State :=
  (add_comment video1_id "nice" (Some bob_id) comment1_id 4 st_video).2.

(** Bob has liked Alice's video. *)
Definition st_liked : State :=
  (like_video video1_id (mkLikeRequest 1) (Some bob_id) like1_id 5 st_video).2.

(** Bob has subscribed to Alice. *)
Definition st_subscribed : State :=
  (subscribe_channel alice_id (Some bob_id) sub1_id 6 st_video).2.

(** Bob uploads a second video. *)
Definition st_two_videos : State :=
  (upload_video "second" None None (mkUploadFile "b.mp4" "bytes") None (Some bob_id)
     "333333333333333333333333" "444444444444444444444444" video2_id 7 7 st_video).2.


Definition returned {A} (r : Res (list A)) : option nat :=
  match r with Ok l => Some (length l) | HTTPException _ _ => None end.

Definition channel_hash (r : Res body) : option value :=
  match r with
  | Ok payload =>
      match payload !! "channel" with
      | Some (JObj profile) => profile !! "password_hash"
      | _ => None
      end
  | _ => None
  end.

Definition first_author_hash (r : Res (list body)) : option value :=
  match r with
  | Ok (item :: _) =>
      match item !! "user" with
      | Some (JObj profile) => profile !! "password_hash"
      | _ => None
      end
  | _ => None
  end.

Definition profile_hash (r : Res body) : option json :=
  match r with
  | Ok payload => payload !! "password_hash"
  | _ => None
  end.

(** C1.  After Alice and Bob have registered, Alice has uploaded a video and
    Bob has commented on it, the video detail carries Alice's password hash
    in [channel], the comment list carries Bob's in the comment's [user], and
    Alice's channel profile carries hers at its top level. *)
Theorem embedded_profiles_expose_password_hash :
  channel_hash (get_video video1_id 9 st_comment).1 = Some (VStr (toy_hash "s1" "pw1"))
  ∧ first_author_hash (list_comments video1_id None st_comment).1
    = Some (VStr (toy_hash "s2" "pw2"))
  ∧ profile_hash (get_channel alice_id st_comment).1
    = Some (JVal (VStr (toy_hash "s1" "pw1"))).
Proof. repeat split; run. Qed.

(* ---- C2 ---- *)

(** A header that is not an id at all names no user, and the like route
    answers it with 400, not 401. *)
Lemma malformed_identity_gets_400 :
  ObjectId "not-an-id" = None
  ∧ dispatch (PostLike video1_id (mkLikeRequest 1) like1_id 5) (Some "not-an-id") st_video
    = (HTTPException 400 "Invalid id format", st_video)
  ∧ ∀ msg, (dispatch (PostLike video1_id (mkLikeRequest 1) like1_id 5)
              (Some "not-an-id") st_video).1 ≠ HTTPException 401 msg.
Proof. split; [run|]. split; [run|]. intros msg. vm_compute. discriminate. Qed.

Lemma unidentified_request_rejected_sample :
  dispatch (PostLike video1_id (mkLikeRequest 1) like1_id 5) None st_video
  = (HTTPException 401 "Missing X-User-Id header", st_video)
  ∧ dispatch (PostLike video1_id (mkLikeRequest 1) like1_id 5) (Some nobody_id) st_video
    = (HTTPException 401 "Invalid user id", st_video)
  ∧ dispatch (PostLike video1_id (mkLikeRequest 1) like1_id 5) (Some "not-an-id") st_video
    = (HTTPException 400 "Invalid id format", st_video).
Proof.
  destruct (unidentified_request_rejected
              (PostLike video1_id (mkLikeRequest 1) like1_id 5) st_video)
    as (Hmissing & Hunknown & Hmalformed).
  split; [apply Hmissing; by left|].
  split; [apply (Hunknown nobody_id nobody_id); [done|run|run]|].
  apply Hmalformed; [done|run].
Defined.

(* ---- C3 ---- *)



(* ---- C4 ---- *)


(* ---- C5 ---- *)



(* ---- C6 ---- *)


(* ---- C7 ---- *)


(* ---- C8 ---- *)


(* ---- C9 ---- *)

(** With [limit=0] both listings return the two stored videos. *)
Lemma limit_zero_returns_everything :
  returned (list_videos (Some 0) st_two_videos).1 = Some 2%nat
  ∧ returned (feed (Some 0) st_two_videos).1 = Some 2%nat
  ∧ ¬ (Z.of_nat 2 ≤ 0).
Proof. split; [run|]. split; [run|]. lia. Qed.

Lemma listings_bounded_and_newest_first_sample :
  ∃ docs : list Doc,
    list_videos (Some 1) st_two_videos
    = (Ok ((fun v => to_str_id (as_dict v)) <$> docs), st_two_videos)
    ∧ StronglySorted not_older docs
    ∧ Z.of_nat (length ((fun v => to_str_id (as_dict v)) <$> docs)) ≤ 1.
Proof.
  destruct (listings_bounded_and_newest_first st_two_videos (Some 1))
    as (docs & Hlist & _ & _ & Hsorted & Hbound).
  exists docs. split; [exact Hlist|]. split; [exact Hsorted|].
  apply Hbound. simpl. lia.
Defined.

(* ---- C10 ---- *)


End Examples.

(* --------------------------------------------------------------------- *)
(* 14. Rendering documents                                                *)
(* --------------------------------------------------------------------- *)

Section Rendering.
Context {RT : Runtime}.

(** How [to_str_id] prints one field. *)
Definition render (v : value) : value :=
  match v with VDate t => VStr (isoformat t) | _ => v end.

Lemma to_str_id_oid (d : pydict) (o : string) :
  d !! "_id" = Some (VOid o) →
  to_str_id d = render <$> <["id" := VStr o]> (delete "_id" d).
Proof.
  intros Hid. unfold to_str_id. rewrite Hid.
  rewrite bool_decide_eq_false_2; [done|]. intros ->. by rewrite lookup_empty in Hid.
Qed.


Lemma to_str_id_stored_id (d : Doc) :
  to_str_id (as_dict d) !! "id" = Some (VStr (doc_id d)).
Proof.
  rewrite (to_str_id_oid _ (doc_id d)) by apply as_dict_id.
  by rewrite lookup_fmap, lookup_insert_eq.
Qed.

(** X2.  For a document read from the store, [to_str_id] drops [_id], puts
    the identifier's text under [id], and keeps every other field, a
    datetime as its ISO text and anything else unchanged. *)
Theorem to_str_id_of_stored_document (d : Doc) :
  to_str_id (as_dict d) !! "_id" = None
  ∧ to_str_id (as_dict d) !! "id" = Some (VStr (doc_id d))
  ∧ ∀ k, k ≠ "id" → k ≠ "_id" →
         to_str_id (as_dict d) !! k = render <$> doc_fields d !! k.
Proof.
  split; [|split].
  - rewrite (to_str_id_oid _ (doc_id d)) by apply as_dict_id.
    by rewrite lookup_fmap, lookup_insert_ne, lookup_delete_eq.
  - apply to_str_id_stored_id.
  - rewrite (to_str_id_oid _ (doc_id d)) by apply as_dict_id. intros k Hid H_id.
    rewrite lookup_fmap, lookup_insert_ne, lookup_delete_ne by done.
    by rewrite as_dict_field.
Qed.

End Rendering.

(* --------------------------------------------------------------------- *)
(* 15. Registration and login                                             *)
(* --------------------------------------------------------------------- *)

Section Accounts.
Context {RT : Runtime}.

(** The user document [register] stores. *)
Definition user_doc (p : RegisterRequest) (salt : string) (now1 now2 : Z) : pydict :=
  <["username" := VStr (reg_username p)]>
  (<["email" := VStr (reg_email p)]>
  (<["password_hash" := VStr (hash_password salt (reg_password p))]>
  (<["avatar_url" := VNull]>
  (<["bio" := VNull]>
  (<["created_at" := VDate now1]>
  (<["updated_at" := VDate now2]>
  (<["subscriber_count" := VInt 0]> ∅))))))).

Definition by_email (e : string) : query := [("email", VStr e)].
Definition by_username (n : string) : query := [("username", VStr n)].

Lemma register_run (st : State) (p : RegisterRequest) (salt new_id : string) (now1 now2 : Z) :
  find_one (by_email (reg_email p)) (db_user st) = None →
  find_one (by_username (reg_username p)) (db_user st) = None →
  register p salt new_id now1 now2 st
  = (Ok (to_str_id (delete "password_hash"
                      (<["_id" := VOid new_id]> (user_doc p salt now1 now2)))),
     set_user (insert_one new_id (user_doc p salt now1 now2)) st).
Proof.
  intros He Hn. unfold register, bind at 1, gets at 1. unfold by_email in He. rewrite He.
  unfold bind at 1, gets at 1. unfold by_username in Hn. by rewrite Hn.
Qed.

Lemma register_Ok (st st' : State) (p : RegisterRequest) (salt new_id : string)
    (now1 now2 : Z) (resp : pydict) :
  register p salt new_id now1 now2 st = (Ok resp, st') →
  find_one (by_email (reg_email p)) (db_user st) = None
  ∧ find_one (by_username (reg_username p)) (db_user st) = None.
Proof.
  unfold register, bind at 1, gets at 1, by_email, by_username.
  destruct (find_one [("email", _)] (db_user st)) eqn:He; [done|].
  unfold bind at 1, gets at 1.
  destruct (find_one [("username", _)] (db_user st)) eqn:Hn; [done|]. by intros _.
Qed.

Lemma matches_new_user_email (p : RegisterRequest) (salt new_id : string) (now1 now2 : Z) :
  matches (by_email (reg_email p)) (mkDoc new_id (user_doc p salt now1 now2)) = true.
Proof.
  unfold matches, by_email, as_dict, user_doc. cbn [forallb fst snd doc_id doc_fields].
  do 2 (rewrite lookup_insert_ne by done). rewrite lookup_insert_eq.
  by rewrite bool_decide_eq_true_2.
Qed.

Lemma matches_new_user_name (p : RegisterRequest) (salt new_id : string) (now1 now2 : Z) :
  matches (by_username (reg_username p)) (mkDoc new_id (user_doc p salt now1 now2)) = true.
Proof.
  unfold matches, by_username, as_dict, user_doc. cbn [forallb fst snd doc_id doc_fields].
  rewrite lookup_insert_ne by done. rewrite lookup_insert_eq.
  by rewrite bool_decide_eq_true_2.
Qed.

Lemma find_one_snoc_new (q : query) (l : list Doc) (d : Doc) :
  find_one q l = None → matches q d = true → find_one q (l ++ [d]) = Some d.
Proof. intros Hn Hd. apply find_one_first; [by apply find_one_None | done]. Qed.

Lemma find_one_app_Some (q : query) (l k : list Doc) (d : Doc) :
  find_one q l = Some d → find_one q (l ++ k) = Some d.
Proof.
  intros (l1 & l2 & -> & Hd & Hl1)%find_one_Some.
  rewrite <- app_assoc. simpl. by apply find_one_first.
Qed.

Lemma register_taken_email (st : State) (p : RegisterRequest) (salt new_id : string)
    (now1 now2 : Z) (u : Doc) :
  find_one (by_email (reg_email p)) (db_user st) = Some u →
  register p salt new_id now1 now2 st = (HTTPException 400 "Email already in use", st).
Proof. intros He. unfold register, bind, gets. unfold by_email in He. by rewrite He. Qed.

Lemma register_taken_username (st : State) (p : RegisterRequest) (salt new_id : string)
    (now1 now2 : Z) (u : Doc) :
  find_one (by_email (reg_email p)) (db_user st) = None →
  find_one (by_username (reg_username p)) (db_user st) = Some u →
  register p salt new_id now1 now2 st = (HTTPException 400 "Username already in use", st).
Proof.
  intros He Hn. unfold register, bind at 1, gets at 1. unfold by_email in He. rewrite He.
  unfold bind, gets. unfold by_username in Hn. by rewrite Hn.
Qed.

(** X3.  [register] refuses a taken email with 400 "Email already in use",
    and, when the email is free, a taken username with 400 "Username already
    in use"; in both cases nothing is written. *)
Theorem register_rejects_taken_email_or_username
    (st : State) (p : RegisterRequest) (salt new_id : string) (now1 now2 : Z) (u : Doc) :
  (find_one [("email", VStr (reg_email p))] (db_user st) = Some u →
   register p salt new_id now1 now2 st = (HTTPException 400 "Email already in use", st))
  ∧ (find_one [("email", VStr (reg_email p))] (db_user st) = None →
     find_one [("username", VStr (reg_username p))] (db_user st) = Some u →
     register p salt new_id now1 now2 st
     = (HTTPException 400 "Username already in use", st)).
Proof.
  split; [apply register_taken_email | apply register_taken_username].
Qed.


(** X5.  Register, then log in: when the password library verifies a
    password against the hash it made from it, a login with the email and
    password just registered succeeds, writes nothing, and answers with the
    new user's id and no [password_hash] field. *)
Theorem register_then_login
    (st st' : State) (p : RegisterRequest) (salt new_id : string) (now1 now2 : Z)
    (resp : pydict) :
  pwd_verify (reg_password p) (pwd_hash salt (reg_password p)) = true →
  register p salt new_id now1 now2 st = (Ok resp, st') →
  ∃ profile,
    login (mkLoginRequest (reg_email p) (reg_password p)) st' = (Ok profile, st')
    ∧ profile !! "id" = Some (VStr new_id)
    ∧ profile !! "password_hash" = None.
Proof.
  intros Hverify Hreg. destruct (register_Ok _ _ _ _ _ _ _ _ Hreg) as [He Hn].
  rewrite register_run in Hreg by done. injection Hreg as _ <-.
  eexists. unfold login, bind, gets. cbn [login_email login_password db_user set_user].
  unfold insert_one. rewrite (find_one_snoc_new _ _ _ He (matches_new_user_email _ _ _ _ _)).
  assert (stored_hash (as_dict (mkDoc new_id (user_doc p salt now1 now2)))
          = pwd_hash salt (reg_password p)) as ->.
  { unfold stored_hash, as_dict, user_doc, hash_password. cbn [doc_id doc_fields].
    by simplify_map_eq. }
  unfold verify_password. rewrite Hverify. cbn [negb ret]. split; [reflexivity|].
  rewrite (to_str_id_oid _ new_id)
    by (unfold as_dict; cbn [doc_id doc_fields]; by simplify_map_eq).
  rewrite !lookup_fmap. unfold as_dict. cbn [doc_id doc_fields]. by simplify_map_eq.
Qed.

(** X6.  After a successful registration, a second one with the same email
    is refused with 400 "Email already in use", and one with another email
    but the same username is refused with 400 as well; neither writes. *)
Theorem second_registration_rejected
    (st st' : State) (p p' : RegisterRequest) (salt salt' new_id new_id' : string)
    (now1 now2 now1' now2' : Z) (resp : pydict) :
  register p salt new_id now1 now2 st = (Ok resp, st') →
  (reg_email p' = reg_email p →
   register p' salt' new_id' now1' now2' st'
   = (HTTPException 400 "Email already in use", st'))
  ∧ (reg_username p' = reg_username p →
     ∃ msg, register p' salt' new_id' now1' now2' st' = (HTTPException 400 msg, st')).
Proof.
  intros Hreg. destruct (register_Ok _ _ _ _ _ _ _ _ Hreg) as [He Hn].
  rewrite register_run in Hreg by done. injection Hreg as _ <-.
  pose proof (find_one_snoc_new _ _ _ He (matches_new_user_email p salt new_id now1 now2)) as He'.
  pose proof (find_one_snoc_new _ _ _ Hn (matches_new_user_name p salt new_id now1 now2)) as Hn'.
  split.
  - intros Heq. eapply register_taken_email. rewrite Heq. exact He'.
  - intros Heq.
    destruct (find_one (by_email (reg_email p'))
                (db_user (set_user (insert_one new_id (user_doc p salt now1 now2)) st)))
      as [u|] eqn:He2.
    + eexists. by eapply register_taken_email.
    + eexists. eapply register_taken_username; [done|]. rewrite Heq. exact Hn'.
Qed.

(** X7.  [login] never writes, and a successful login answers with the
    matched user's id and no [password_hash] field. *)
Theorem login_answer_has_no_hash (st st' : State) (p : LoginRequest) (resp : pydict) :
  (login p st).2 = st
  ∧ (login p st = (Ok resp, st') →
     resp !! "password_hash" = None
     ∧ ∃ user, find_one [("email", VStr (login_email p))] (db_user st) = Some user
               ∧ verify_password (login_password p) (stored_hash (as_dict user)) = true
               ∧ resp !! "id" = Some (VStr (doc_id user))).
Proof.
  unfold login, bind, gets.
  destruct (find_one _ (db_user st)) as [user|] eqn:Hu; [|by split].
  destruct (verify_password _ _) eqn:Hv; cbn [negb]; [|by split].
  split; [done|]. intros [= <- <-].
  rewrite (to_str_id_oid _ (doc_id user))
    by (rewrite lookup_delete_ne by done; apply as_dict_id).
  rewrite !lookup_fmap. split; [by simplify_map_eq|].
  exists user. repeat split; [done|]. by simplify_map_eq.
Qed.

End Accounts.

(* --------------------------------------------------------------------- *)
(* 16. Video detail and comments                                          *)
(* --------------------------------------------------------------------- *)

Section Videos.
Context {RT : Runtime}.

(** The update [get_video] sends: one more view, and the time of it. *)
Definition view_update (now : Z) (f : pydict) : pydict :=
  op_set "updated_at" (VDate now) (op_inc "views_count" 1 f).

Lemma view_update_other (now : Z) (f : pydict) (k : string) :
  k ≠ "views_count" → k ≠ "updated_at" → view_update now f !! k = f !! k.
Proof.
  intros H1 H2. unfold view_update, op_set, op_inc. rewrite lookup_insert_ne by done.
  destruct (f !! "views_count") as [[]|]; by rewrite ?lookup_insert_ne.
Qed.

Lemma view_update_views (now n : Z) (f : pydict) :
  f !! "views_count" = Some (VInt n) →
  view_update now f !! "views_count" = Some (VInt (n + 1)).
Proof.
  intros Hn. unfold view_update, op_set, op_inc. rewrite Hn.
  rewrite lookup_insert_ne by done. apply lookup_insert_eq.
Qed.

Lemma lookup_author_state (d : Doc) (st : State) : (lookup_author d st).2 = st.
Proof.
  unfold lookup_author. destruct (get_truthy _ _); [|done].
  unfold bind, objid_of, objid.
  destruct (default VNull _) as [| |s|o| |]; try done.
  by destruct (ObjectId s).
Qed.

Lemma find_one_id_is (i : string) (l : list Doc) (d : Doc) :
  find_one [("_id", VOid i)] l = Some d → doc_id d = i.
Proof.
  intros (_ & _ & _ & Hd & _)%find_one_Some. rewrite matches_id in Hd.
  by apply bool_decide_eq_true in Hd.
Qed.

(** What [get_video] does once the video is found. *)
Lemma get_video_run (st : State) (vid o : string) (v : Doc) (now : Z) :
  ObjectId vid = Some o → find_one [("_id", VOid o)] (db_video st) = Some v →
  get_video vid now st =
    let st1 := set_video (update_one [("_id", VOid o)] (view_update now)) st in
    let v1 := mkDoc (doc_id v) (view_update now (doc_fields v)) in
    match (lookup_author v1 st1).1 with
    | Ok user =>
        (Ok (<["channel" := embed_user user]> (JVal <$> to_str_id (as_dict v1))), st1)
    | HTTPException c m => (HTTPException c m, st1)
    end.
Proof.
  intros Ho Hv. pose proof (find_one_id_is _ _ _ Hv) as Hid. subst o.
  unfold get_video, bind at 1, objid at 1. rewrite Ho. cbn [ret].
  unfold bind at 1, gets at 1. rewrite Hv.
  unfold bind at 1, modify at 1. unfold bind at 1, gets at 1.
  cbn [db_video set_video]. fold (view_update now).
  rewrite (find_one_update_one (doc_id v) (view_update now) _ v Hv).
  unfold bind at 1.
  set (st1 := set_video _ st). set (v1 := mkDoc _ _).
  pose proof (lookup_author_state v1 st1) as Hst.
  destruct (lookup_author v1 st1) as [[user|c m] st2]; simpl in Hst; subst st2; done.
Qed.

(** X8.  Each [get_video] of a stored video adds exactly one to its
    [views_count] and stamps [updated_at], whether or not the answer is an
    error; no other field of the video and no other collection changes, and
    a successful answer shows the new count. *)
Theorem get_video_counts_one_view
    (st : State) (vid o : string) (v : Doc) (n now : Z) :
  ObjectId vid = Some o → find_one [("_id", VOid o)] (db_video st) = Some v →
  doc_fields v !! "views_count" = Some (VInt n) →
  ∃ r st' v',
    get_video vid now st = (r, st')
    ∧ find_one [("_id", VOid o)] (db_video st') = Some v'
    ∧ doc_fields v' !! "views_count" = Some (VInt (n + 1))
    ∧ doc_fields v' !! "updated_at" = Some (VDate now)
    ∧ (∀ k, k ≠ "views_count" → k ≠ "updated_at" → doc_fields v' !! k = doc_fields v !! k)
    ∧ (db_user st', db_comment st', db_like st', db_subscription st', files st')
      = (db_user st, db_comment st, db_like st, db_subscription st, files st)
    ∧ (∀ payload, r = Ok payload →
                  payload !! "views_count" = Some (JVal (VInt (n + 1)))).
Proof.
  intros Ho Hv Hn. rewrite (get_video_run st vid o v now Ho Hv). cbv zeta.
  set (st1 := set_video _ st). set (v1 := mkDoc _ _).
  assert (find_one [("_id", VOid o)] (db_video st1) = Some v1) as Hv1
    by by apply find_one_update_one.
  assert (to_str_id (as_dict v1) !! "views_count" = Some (VInt (n + 1))) as Hshown.
  { rewrite (to_str_id_oid (as_dict v1) (doc_id v1)) by apply as_dict_id.
    rewrite lookup_fmap, lookup_insert_ne, lookup_delete_ne by done.
    rewrite as_dict_field by done. unfold v1. cbn [doc_fields].
    by rewrite (view_update_views now n). }
  destruct (lookup_author v1 st1).1 as [user|c m]; eexists _, st1, v1;
    (split; [reflexivity|]); (split; [exact Hv1|]);
    (split; [by apply view_update_views|]);
    (split; [unfold v1, view_update, op_set; cbn [doc_fields]; apply lookup_insert_eq|]);
    (split; [intros k ? ?; by apply view_update_other|]); (split; [done|]).
  - intros payload [= <-]. rewrite lookup_insert_ne by done.
    by rewrite lookup_fmap, Hshown.
  - by intros payload.
Qed.

(** X9.  [get_video] and [get_channel] answer 400 "Invalid id format" for an
    id that does not parse and 404 for one that names no stored document,
    and write nothing in either case. *)
Theorem lookup_by_id_errors (st : State) (id_str : string) (now : Z) :
  (ObjectId id_str = None →
   get_video id_str now st = (HTTPException 400 "Invalid id format", st)
   ∧ get_channel id_str st = (HTTPException 400 "Invalid id format", st))
  ∧ (∀ o, ObjectId id_str = Some o →
       (find_one [("_id", VOid o)] (db_video st) = None →
        get_video id_str now st = (HTTPException 404 "Video not found", st))
       ∧ (find_one [("_id", VOid o)] (db_user st) = None →
          get_channel id_str st = (HTTPException 404 "Channel not found", st))).
Proof.
  split.
  - intros Ho. unfold get_video, get_channel, bind, objid. by rewrite Ho.
  - intros o Ho. split; intros Hnone.
    + unfold get_video, bind, objid, gets. rewrite Ho. cbn [ret]. by rewrite Hnone.
    + unfold get_channel, bind, objid, gets. rewrite Ho. cbn [ret]. by rewrite Hnone.
Qed.

Lemma lookup_author_found (d owner : Doc) (st : State) (s uo : string) :
  doc_fields d !! "user_id" = Some (VStr s) → s ≠ "" → ObjectId s = Some uo →
  find_one [("_id", VOid uo)] (db_user st) = Some owner →
  (lookup_author d st).1 = Ok (Some owner).
Proof.
  intros Hu Hs%String.eqb_neq Ho Howner. unfold lookup_author, get_truthy.
  rewrite as_dict_field, Hu by done. simpl. rewrite Hs. simpl.
  unfold bind, objid, gets. rewrite Ho. simpl. by rewrite Howner.
Qed.

Lemma lookup_author_absent (d : Doc) (st : State) :
  doc_fields d !! "user_id" = None
  ∨ (∃ s uo, doc_fields d !! "user_id" = Some (VStr s) ∧ ObjectId s = Some uo
             ∧ find_one [("_id", VOid uo)] (db_user st) = None) →
  (lookup_author d st).1 = Ok None.
Proof.
  unfold lookup_author, get_truthy. rewrite as_dict_field by done.
  intros [-> | (s & uo & -> & Ho & Hnone)]; [done|].
  simpl. destruct (String.eqb s ""); [done|]. simpl.
  unfold bind, objid, gets. rewrite Ho. simpl. by rewrite Hnone.
Qed.

(** X10.  [get_video] embeds the owner under [channel]: when the video's
    [user_id] names a stored user, [channel] is that user's document as
    [to_str_id] renders it; when the video has no [user_id], or it names no
    stored user, the call still succeeds and [channel] is null. *)
Theorem get_video_embeds_owner_or_null
    (st : State) (vid o : string) (v : Doc) (now : Z) :
  ObjectId vid = Some o → find_one [("_id", VOid o)] (db_video st) = Some v →
  (∀ s uo owner,
     doc_fields v !! "user_id" = Some (VStr s) → s ≠ "" → ObjectId s = Some uo →
     find_one [("_id", VOid uo)] (db_user st) = Some owner →
     ∃ payload st', get_video vid now st = (Ok payload, st')
                    ∧ payload !! "channel" = Some (JObj (to_str_id (as_dict owner))))
  ∧ (doc_fields v !! "user_id" = None
     ∨ (∃ s uo, doc_fields v !! "user_id" = Some (VStr s) ∧ ObjectId s = Some uo
                ∧ find_one [("_id", VOid uo)] (db_user st) = None) →
     ∃ payload st', get_video vid now st = (Ok payload, st')
                    ∧ payload !! "channel" = Some (JVal VNull)).
Proof.
  intros Ho Hv. rewrite (get_video_run st vid o v now Ho Hv). cbv zeta.
  set (st1 := set_video _ st). set (v1 := mkDoc _ _).
  assert (doc_fields v1 !! "user_id" = doc_fields v !! "user_id") as Huid
    by by apply view_update_other.
  split.
  - intros s uo owner Hu Hs Huo Howner.
    rewrite (lookup_author_found v1 owner st1 s uo) by by rewrite ?Huid.
    eexists _, _. split; [reflexivity|]. apply lookup_insert_eq.
  - intros Habsent. rewrite (lookup_author_absent v1 st1) by by rewrite Huid.
    eexists _, _. split; [reflexivity|]. apply lookup_insert_eq.
Qed.

(** The comment document [add_comment] stores. *)
Definition comment_doc (vid u text : string) (now : Z) : pydict :=
  <["video_id" := VStr vid]>
  (<["user_id" := VStr u]>
  (<["text" := VStr text]>
  (<["created_at" := VDate now]> ∅))).


(** X12.  For a known caller, the three routes that name a target answer
    400 "Invalid id format" when the target id does not parse and 404 when
    it names no stored video (comment, like) or user (subscribe, for a
    channel id other than the caller's); nothing is written. *)
Theorem missing_target_rejected
    (st : State) (t u text new_id : string) (p : LikeRequest) (now : Z) :
  authenticated st u →
  (ObjectId t = None →
   add_comment t text (Some u) new_id now st = (HTTPException 400 "Invalid id format", st)
   ∧ like_video t p (Some u) new_id now st = (HTTPException 400 "Invalid id format", st)
   ∧ (t ≠ u → subscribe_channel t (Some u) new_id now st
              = (HTTPException 400 "Invalid id format", st)))
  ∧ (∀ o, ObjectId t = Some o →
       (find_one [("_id", VOid o)] (db_video st) = None →
        add_comment t text (Some u) new_id now st = (HTTPException 404 "Video not found", st)
        ∧ like_video t p (Some u) new_id now st = (HTTPException 404 "Video not found", st))
       ∧ (find_one [("_id", VOid o)] (db_user st) = None → t ≠ u →
          subscribe_channel t (Some u) new_id now st
          = (HTTPException 404 "Channel not found", st))).
Proof.
  intros Hauth. split.
  - intros Ho. repeat split.
    + unfold add_comment, bind at 1. rewrite Hauth. unfold bind, objid. by rewrite Ho.
    + unfold like_video, bind at 1. rewrite Hauth. unfold bind, objid. by rewrite Ho.
    + intros Hne%String.eqb_neq. unfold subscribe_channel, bind at 1.
      rewrite Hauth, Hne. unfold bind, objid. by rewrite Ho.
  - intros o Ho. split.
    + intros Hnone. split.
      * unfold add_comment, bind at 1. rewrite Hauth.
        unfold bind, objid, gets. rewrite Ho. cbn [ret]. by rewrite Hnone.
      * unfold like_video, bind at 1. rewrite Hauth.
        unfold bind, objid, gets. rewrite Ho. cbn [ret]. by rewrite Hnone.
    + intros Hnone Hne%String.eqb_neq. unfold subscribe_channel, bind at 1.
      rewrite Hauth, Hne. unfold bind, objid, gets. rewrite Ho. cbn [ret]. by rewrite Hnone.
Qed.

End Videos.

(* --------------------------------------------------------------------- *)
(* 17. What the toggles keep                                              *)
(* --------------------------------------------------------------------- *)

Section Toggles.
Context {RT : Runtime}.

(** Every outcome of [like_video]: an error with nothing written, or the
    run of [like_video_run]. *)
Lemma like_video_cases (st st' : State) (v new_id : string) (p : LikeRequest)
    (x : option string) (now : Z) (r : Res pydict) :
  like_video v p x new_id now st = (r, st') →
  (st' = st ∧ ∃ code msg, r = HTTPException code msg)
  ∨ ∃ u o vd, x = Some u ∧ authenticated st u ∧ ObjectId v = Some o
              ∧ find_one [("_id", VOid o)] (db_video st) = Some vd
              ∧ r = Ok (like_response v (count_documents (liked v) (db_like st')))
              ∧ db_like st' = likes_after v u (like_value p) new_id now (db_like st)
              ∧ st' = set_video (update_one [("_id", VOid o)]
                                   (op_set "likes_count"
                                      (VInt (count_documents (liked v) (db_like st')))))
                        (set_like (fun _ => db_like st') st).
Proof.
  intros Hrun.
  destruct (get_current_user_id x st) as [[u|c m] st1] eqn:Hauth.
  - apply get_current_user_id_Ok in Hauth as Hx. destruct Hx as (-> & -> & _ & _).
    destruct (ObjectId v) as [o|] eqn:Ho.
    + destruct (find_one [("_id", VOid o)] (db_video st)) as [vd|] eqn:Hvd.
      * right. exists u, o, vd. destruct p as [w].
        rewrite (like_video_run st v o u new_id vd w now) in Hrun by done.
        injection Hrun as <- <-. by repeat split.
      * left. unfold like_video, bind at 1 in Hrun. rewrite Hauth in Hrun.
        unfold bind, objid, gets in Hrun. rewrite Ho in Hrun. cbn [ret] in Hrun.
        rewrite Hvd in Hrun. injection Hrun as <- <-; by eauto.
    + left. unfold like_video, bind at 1 in Hrun. rewrite Hauth in Hrun.
      unfold bind, objid in Hrun. rewrite Ho in Hrun. injection Hrun as <- <-; by eauto.
  - left. pose proof (get_current_user_id_state x st) as Hst. rewrite Hauth in Hst.
    simpl in Hst. subst st1. unfold like_video, bind at 1 in Hrun.
    rewrite Hauth in Hrun. injection Hrun as <- <-; by eauto.
Qed.







(** X14.  [like_video] writes only Like rows and the video's [likes_count]:
    users, comments, subscriptions and files are left alone, and every video
    keeps its place, its identifier and all its other fields. *)
Theorem like_video_frame
    (st st' : State) (v new_id : string) (p : LikeRequest) (x : option string)
    (now : Z) (r : Res pydict) :
  like_video v p x new_id now st = (r, st') →
  (db_user st', db_comment st', db_subscription st', files st')
  = (db_user st, db_comment st, db_subscription st, files st)
  ∧ Forall2 (fun d d' => doc_id d' = doc_id d
                         ∧ ∀ k, k ≠ "likes_count" → doc_fields d' !! k = doc_fields d !! k)
      (db_video st) (db_video st').
Proof.
  intros Hrun.
  destruct (like_video_cases _ _ _ _ _ _ _ _ Hrun)
    as [[-> _] | (u & o & vd & _ & _ & _ & _ & _ & _ & ->)].
  - split; [done|]. apply Forall2_same_length_lookup. split; [done|].
    intros i d d' Hd Hd'. by simplify_eq.
  - split; [done|]. cbn [db_video set_video set_like].
    generalize (db_video st). intros l. induction l as [|d l IH]; [constructor|].
    cbn [update_one]. destruct (matches _ d).
    + constructor.
      * split; [done|]. intros k Hk. cbn [doc_fields]. unfold op_set.
        by rewrite lookup_insert_ne.
      * apply Forall2_same_length_lookup. split; [done|].
        intros i d1 d2 Hd1 Hd2. by simplify_eq.
    + by constructor.
Qed.

(** Every outcome of [subscribe_channel]. *)
Lemma subscribe_channel_cases (st st' : State) (c new_id : string)
    (x : option string) (now : Z) (r : Res pydict) :
  subscribe_channel c x new_id now st = (r, st') →
  (st' = st ∧ ∃ code msg, r = HTTPException code msg)
  ∨ ∃ u o cd, x = Some u ∧ authenticated st u ∧ c ≠ u ∧ ObjectId c = Some o
              ∧ find_one [("_id", VOid o)] (db_user st) = Some cd
              ∧ r = Ok (sub_response c (count_documents (subs_of c) (db_subscription st')))
              ∧ db_subscription st' = subs_after c u new_id now (db_subscription st)
              ∧ db_user st' = update_one [("_id", VOid o)]
                                (op_set "subscriber_count"
                                   (VInt (count_documents (subs_of c) (db_subscription st'))))
                                (db_user st).
Proof.
  intros Hrun.
  destruct (get_current_user_id x st) as [[u|code m] st1] eqn:Hauth.
  - apply get_current_user_id_Ok in Hauth as Hx. destruct Hx as (-> & -> & _ & _).
    destruct (String.eqb c u) eqn:Hcu.
    { left. unfold subscribe_channel, bind at 1 in Hrun. rewrite Hauth, Hcu in Hrun.
      injection Hrun as <- <-; by eauto. }
    apply String.eqb_neq in Hcu as Hne.
    destruct (ObjectId c) as [o|] eqn:Ho.
    + destruct (find_one [("_id", VOid o)] (db_user st)) as [cd|] eqn:Hcd.
      * right. exists u, o, cd.
        rewrite (subscribe_channel_run st c o u new_id cd now) in Hrun by done.
        injection Hrun as <- <-. by repeat split.
      * left. unfold subscribe_channel, bind at 1 in Hrun. rewrite Hauth, Hcu in Hrun.
        unfold bind, objid, gets in Hrun. rewrite Ho in Hrun. cbn [ret] in Hrun.
        rewrite Hcd in Hrun. injection Hrun as <- <-; by eauto.
    + left. unfold subscribe_channel, bind at 1 in Hrun. rewrite Hauth, Hcu in Hrun.
      unfold bind, objid in Hrun. rewrite Ho in Hrun. injection Hrun as <- <-; by eauto.
  - left. pose proof (get_current_user_id_state x st) as Hst. rewrite Hauth in Hst.
    simpl in Hst. subst st1. unfold subscribe_channel, bind at 1 in Hrun.
    rewrite Hauth in Hrun. injection Hrun as <- <-; by eauto.
Qed.

(** X15.  Whenever [subscribe_channel] succeeds, the [subscriber_count] it
    returns and the one it has stored on the channel's user both equal the
    number of Subscription rows now held for the channel id. *)
Theorem subscribe_channel_count_is_fresh_count
    (st st' : State) (c new_id : string) (x : option string) (now : Z) (resp : pydict) :
  subscribe_channel c x new_id now st = (Ok resp, st') →
  let n := count_documents [("channel_id", VStr c)] (db_subscription st') in
  resp !! "subscriber_count" = Some (VInt n)
  ∧ ∃ o cd, ObjectId c = Some o
            ∧ find_one [("_id", VOid o)] (db_user st') = Some cd
            ∧ doc_fields cd !! "subscriber_count" = Some (VInt n).
Proof.
  intros Hrun. cbv zeta. change [("channel_id", VStr c)] with (subs_of c).
  destruct (subscribe_channel_cases _ _ _ _ _ _ _ Hrun)
    as [[_ (code & msg & [=])] | (u & o & cd & _ & _ & _ & Ho & Hcd & [= ->] & _ & Huser)].
  - split.
    + unfold sub_response. rewrite lookup_insert_ne by done. apply lookup_insert_eq.
    + exists o, (mkDoc (doc_id cd) (op_set "subscriber_count"
         (VInt (count_documents (subs_of c) (db_subscription st'))) (doc_fields cd))).
      split; [done|]. rewrite Huser. split; [by apply find_one_update_one|].
      cbn [doc_fields]. unfold op_set. apply lookup_insert_eq.
Qed.

End Toggles.

(* --------------------------------------------------------------------- *)
(* 18. Listings and channels                                              *)
(* --------------------------------------------------------------------- *)

Section Newest.
Context {RT : Runtime}.

Lemma insert_desc_perm (x : Doc) (l : list Doc) : insert_desc x l ≡ₚ x :: l.
Proof.
  induction l as [|y l IH]; simpl; [done|].
  destruct (key_le _ _); [done|]. rewrite IH. apply Permutation_swap.
Qed.

Lemma sort_created_desc_perm (l : list Doc) : sort_created_desc l ≡ₚ l.
Proof.
  induction l as [|x l IH]; simpl; [done|]. by rewrite insert_desc_perm, IH.
Qed.

Lemma strongly_sorted_split (l1 l2 : list Doc) :
  StronglySorted not_older (l1 ++ l2) → ∀ a b, a ∈ l1 → b ∈ l2 → not_older a b.
Proof.
  induction l1 as [|x l1 IH]; simpl; intros Hs a b Ha Hb.
  - by apply elem_of_nil in Ha.
  - apply StronglySorted_inv in Hs as [Hs Hx].
    apply elem_of_cons in Ha as [->|Ha]; [|by apply IH].
    eapply Forall_forall in Hx; [done|]. apply elem_of_app. by right.
Qed.

(** X19.  [list_videos] and [feed] return the newest videos: the stored
    videos split into the ones returned and the rest, every returned video
    was created no earlier than every one left out, and with a positive
    limit in force (the caller's, or 20) exactly min(limit, number of
    videos) are returned, while limit 0 leaves none out. *)
Theorem listings_return_the_newest (st : State) (limit_ : option Z) :
  ∃ docs rest : list Doc,
    list_videos limit_ st = (Ok ((fun v => to_str_id (as_dict v)) <$> docs), st)
    ∧ feed limit_ st = (Ok ((fun v => to_str_id (as_dict v)) <$> docs), st)
    ∧ docs ++ rest ≡ₚ db_video st
    ∧ (∀ a b, a ∈ docs → b ∈ rest → not_older a b)
    ∧ (0 < default 20 limit_ →
       length docs = Nat.min (Z.to_nat (default 20 limit_)) (length (db_video st)))
    ∧ (default 20 limit_ = 0 → rest = []).
Proof.
  set (n := default 20 limit_).
  set (s := sort_created_desc (find [] (db_video st))).
  assert (s ≡ₚ db_video st) as Hperm
    by (unfold s; by rewrite sort_created_desc_perm, find_all).
  assert (StronglySorted not_older s) as Hsorted by apply sort_created_desc_sorted.
  exists (limit n s), (if n =? 0 then [] else drop (Z.to_nat (Z.abs n)) s).
  split; [reflexivity|]. split; [reflexivity|]. unfold limit.
  destruct (n =? 0) eqn:Hn.
  - rewrite app_nil_r. split; [done|]. split; [by intros a b _ ?%elem_of_nil|].
    apply Z.eqb_eq in Hn. split; [lia|done].
  - rewrite take_drop. split; [done|]. split.
    + apply strongly_sorted_split. by rewrite take_drop.
    + apply Z.eqb_neq in Hn. split; [|done]. intros Hpos.
      rewrite length_take, (Permutation_length Hperm). f_equal. lia.
Qed.

End Newest.

Section Channels.
Context {RT : Runtime}.




(** X17.  The self-subscription check compares the two id texts.  A known
    caller who names a channel id that is another text for their own
    ObjectId is not refused: when no such row exists yet the call succeeds
    and appends a Subscription row with that channel id and the caller's
    header as subscriber. *)
Theorem self_check_compares_text
    (st : State) (c u o new_id : string) (now : Z) :
  authenticated st u → c ≠ u → ObjectId c = Some o → ObjectId u = Some o →
  find_one [("channel_id", VStr c); ("subscriber_id", VStr u)] (db_subscription st) = None →
  ∃ resp st' row,
    subscribe_channel c (Some u) new_id now st = (Ok resp, st')
    ∧ db_subscription st' = db_subscription st ++ [row]
    ∧ as_dict row !! "channel_id" = Some (VStr c)
    ∧ as_dict row !! "subscriber_id" = Some (VStr u).
Proof.
  intros Hauth Hne Hc Hu Hnone.
  pose proof Hauth as (_ & _ & _ & o' & d & Ho' & Hd)%get_current_user_id_Ok.
  assert (o' = o) as -> by congruence.
  rewrite (subscribe_channel_run st c o u new_id d now) by done.
  eexists _, _, (mkDoc new_id (sub_doc c u now)). split; [reflexivity|].
  cbn [db_subscription set_user set_subscription]. unfold subs_after, sub_key.
  rewrite Hnone. split; [done|].
  unfold as_dict, sub_doc. cbn [doc_id doc_fields]. by simplify_map_eq.
Qed.

(** X18.  [get_channel] of a stored user succeeds and writes nothing.  Its
    [subscriber_count] is the number of Subscription rows held for the
    channel id, counted now, whatever count is stored on the user; its
    [videos] are the videos whose [user_id] is the channel id, newest first;
    its [id] is the user's id. *)
Theorem get_channel_counts_now
    (st : State) (c o : string) (user : Doc) :
  ObjectId c = Some o → find_one [("_id", VOid o)] (db_user st) = Some user →
  ∃ payload docs,
    get_channel c st = (Ok payload, st)
    ∧ payload !! "subscriber_count"
      = Some (JVal (VInt (count_documents [("channel_id", VStr c)] (db_subscription st))))
    ∧ payload !! "videos" = Some (JArr ((fun v => to_str_id (as_dict v)) <$> docs))
    ∧ docs ≡ₚ find [("user_id", VStr c)] (db_video st)
    ∧ StronglySorted not_older docs
    ∧ payload !! "id" = Some (JVal (VStr (doc_id user))).
Proof.
  intros Ho Huser.
  exists (<["videos" := JArr ((fun v => to_str_id (as_dict v)) <$>
              sort_created_desc (find [("user_id", VStr c)] (db_video st)))]>
          (<["subscriber_count" :=
               JVal (VInt (count_documents [("channel_id", VStr c)] (db_subscription st)))]>
             (JVal <$> to_str_id (as_dict user)))),
         (sort_created_desc (find [("user_id", VStr c)] (db_video st))).
  split.
  { unfold get_channel, bind, objid, gets. rewrite Ho. cbn [ret]. by rewrite Huser. }
  split; [by simplify_map_eq|]. split; [by simplify_map_eq|].
  split; [apply sort_created_desc_perm|]. split; [apply sort_created_desc_sorted|].
  do 2 (rewrite lookup_insert_ne by done). rewrite lookup_fmap.
  by rewrite to_str_id_stored_id.
Qed.

End Channels.

(* --------------------------------------------------------------------- *)
(* 19. Uploads                                                            *)
(* --------------------------------------------------------------------- *)

Section Uploads.
Context {RT : Runtime}.

(** [os.path.splitext(name)[1] or dflt] *)
Definition ext_or (dflt name : string) : string :=
  if String.eqb (splitext name) "" then dflt else splitext name.

(** The tags [upload_video] keeps from the form field. *)
Definition tag_list_of (tags : option string) : list string :=
  match tags with
  | Some t =>
      if String.eqb t "" then []
      else strip <$> List.filter (fun x => negb (String.eqb (strip x) "")) (split_comma t)
  | None => []
  end.

Definition thumb_url_of (thumbnail : option UploadFile) (fid2 : string) : value :=
  match thumbnail with
  | Some th => VStr ("/static/thumbnails/" +:+ (fid2 +:+ ext_or ".jpg" (filename th)))
  | None => VNull
  end.

(** The video document [upload_video] stores. *)
Definition video_doc (title : string) (description tags : option string)
    (file : UploadFile) (thumbnail : option UploadFile) (u fid1 fid2 : string)
    (now1 now2 : Z) : pydict :=
  <["user_id" := VStr u]>
  (<["title" := VStr title]>
  (<["description" := opt_str description]>
  (<["tags" := VList (tag_list_of tags)]>
  (<["video_url" := VStr ("/static/videos/" +:+ (fid1 +:+ ext_or ".mp4" (filename file)))]>
  (<["thumbnail_url" := thumb_url_of thumbnail fid2]>
  (<["views_count" := VInt 0]>
  (<["likes_count" := VInt 0]>
  (<["created_at" := VDate now1]>
  (<["updated_at" := VDate now2]> ∅))))))))).





End Uploads.

(* --------------------------------------------------------------------- *)
(* 20. Comment lists                                                      *)
(* --------------------------------------------------------------------- *)

Section CommentLists.
Context {RT : Runtime}.

(** One entry of the comment list: the comment as rendered, with its author
    (or null) under [user]. *)
Definition comment_item (st : State) (d : Doc) (item : body) : Prop :=
  ∃ user, (lookup_author d st).1 = Ok user
          ∧ item = <["user" := embed_user user]> (JVal <$> to_str_id (as_dict d)).

Lemma join_comments_state (cursor : list Doc) (st : State) :
  (join_comments cursor st).2 = st.
Proof.
  induction cursor as [|c rest IH]; [done|]. cbn [join_comments]. unfold bind at 1.
  pose proof (lookup_author_state c st) as Hst.
  destruct (lookup_author c st) as [[user|code m] st1]; simpl in Hst; subst st1; [|done].
  unfold bind at 1. destruct (join_comments rest st) as [[items|code m] st1]; by simpl in *.
Qed.

Lemma join_comments_Ok (cursor : list Doc) (st : State) (items : list body) :
  (join_comments cursor st).1 = Ok items → Forall2 (comment_item st) cursor items.
Proof.
  revert items. induction cursor as [|c rest IH]; intros items.
  - intros [= <-]. constructor.
  - cbn [join_comments]. unfold bind at 1.
    pose proof (lookup_author_state c st) as Hst.
    destruct (lookup_author c st) as [[user|code m] st1] eqn:Hc; simpl in Hst; subst st1;
      [|done].
    unfold bind at 1. pose proof (join_comments_state rest st) as Hst.
    destruct (join_comments rest st) as [[tail|code m] st1]; simpl in Hst; subst st1;
      [|done].
    intros [= <-]. constructor; [|by apply IH].
    exists user. by rewrite Hc.
Qed.


Lemma find_elem (q : query) (l : list Doc) (d : Doc) :
  d ∈ find q l ↔ d ∈ l ∧ matches q d = true.
Proof. unfold find. rewrite list_elem_of_filter. tauto. Qed.

Definition comments_of (vid : string) : query := [("video_id", VStr vid)].

Lemma matches_comments_of (vid : string) (d : Doc) :
  matches (comments_of vid) d = true ↔ as_dict d !! "video_id" = Some (VStr vid).
Proof.
  unfold matches, comments_of. cbn [forallb fst snd]. rewrite andb_true_r.
  apply bool_decide_eq_true.
Qed.

(** X22.  [list_comments] never writes.  When it succeeds, its entries are,
    one for one and in order, comments stored for the video id as given,
    newest first, each as [to_str_id] renders it with its author's stored
    document (or null) under [user]; with a positive limit in force (the
    caller's, or 50) there are at most that many. *)
Theorem list_comments_joins_authors
    (st : State) (vid : string) (limit_ : option Z) :
  (list_comments vid limit_ st).2 = st
  ∧ ∀ items, (list_comments vid limit_ st).1 = Ok items →
      ∃ docs, Forall2 (comment_item st) docs items
              ∧ (∀ d, d ∈ docs → d ∈ db_comment st
                                 ∧ as_dict d !! "video_id" = Some (VStr vid))
              ∧ StronglySorted not_older docs
              ∧ (0 < default 50 limit_ → Z.of_nat (length items) ≤ default 50 limit_).
Proof.
  unfold list_comments, bind, gets. split; [apply join_comments_state|].
  intros items Hitems.
  pose proof (join_comments_state
                (limit (default 50 limit_)
                   (sort_created_desc (find [("video_id", VStr vid)] (db_comment st)))) st) as Hst.
  destruct (join_comments _ st) as [r st1] eqn:Hjoin. simpl in Hst, Hitems. subst st1 r.
  eexists. split; [apply join_comments_Ok; by rewrite Hjoin|].
  split; [|split].
  - intros d Hd%limit_elem%sort_created_desc_elem.
    apply (find_elem (comments_of vid)) in Hd as [Hd Hm]. split; [done|].
    by apply matches_comments_of.
  - apply limit_sorted, sort_created_desc_sorted.
  - intros Hpos.
    assert (Forall2 (comment_item st)
              (limit (default 50 limit_)
                 (sort_created_desc (find [("video_id", VStr vid)] (db_comment st)))) items)
      as Hlen%Forall2_length by (apply join_comments_Ok; by rewrite Hjoin).
    rewrite <- Hlen. by apply limit_length_pos.
Qed.




End CommentLists.

Section CountSteps.
Context {RT : Runtime}.

(** X24.  One call of [like_video] never moves the number of value-1 Like
    rows of the video by more than one, whatever value is sent and whatever
    the outcome, as long as Like identifiers are distinct. *)
Theorem like_video_moves_count_by_at_most_one
    (st st' : State) (v new_id : string) (p : LikeRequest) (x : option string)
    (now : Z) (r : Res pydict) :
  NoDup (doc_id <$> db_like st) →
  like_video v p x new_id now st = (r, st') →
  count_documents [("video_id", VStr v); ("value", VInt 1)] (db_like st) - 1
  ≤ count_documents [("video_id", VStr v); ("value", VInt 1)] (db_like st')
  ≤ count_documents [("video_id", VStr v); ("value", VInt 1)] (db_like st) + 1.
Proof.
  intros Hnd Hrun. change [("video_id", VStr v); ("value", VInt 1)] with (liked v).
  destruct (like_video_cases _ _ _ _ _ _ _ _ Hrun)
    as [[-> _] | (u & o & vd & _ & _ & _ & _ & _ & Hlikes & _)]; [lia|].
  rewrite Hlikes. destruct p as [w]. cbn [like_value].
  destruct (find_one (like_key v u) (db_like st)) as [e|] eqn:He.
  - apply find_one_Some in He as (l1 & l2 & Hl & He & H1). rewrite Hl in *.
    destruct (decide (row_value e = VInt w)) as [Hsame|Hother].
    + rewrite likes_after_same by done. rewrite count_around.
      destruct (matches (liked v) e); lia.
    + rewrite likes_after_other by done. rewrite !count_around.
      destruct e as [i f]. cbn [doc_id doc_fields] in *.
      rewrite (matches_liked_set_value v u) by done.
      rewrite (matches_liked_row v u) by done.
      destruct (bool_decide (w = 1));
        destruct (bool_decide (as_dict (mkDoc i f) !! "value" = Some (VInt 1))); lia.
  - rewrite likes_after_new by by apply find_nil_find_one.
    rewrite count_documents_app, count_documents_cons, matches_liked_new.
    change (count_documents (liked v) []) with 0.
    destruct (bool_decide (w = 1)); lia.
Qed.

End CountSteps.

(* --------------------------------------------------------------------- *)
(* 21. The further properties on the sample database                      *)
(* --------------------------------------------------------------------- *)

Module MoreExamples.
Import Sample Examples.

Definition alice_request := mkRegisterRequest "alice" "alice@x.com" "pw1".
Definition carol_request := mkRegisterRequest "carol" "carol@x.com" "pw3".
Definition carol_id := "cacacacacacacacacacacaca".
Definition ALICE_ID := "AAAAAAAAAAAAAAAAAAAAAAAA".

Definition first_doc (l : list Doc) : Doc := default (mkDoc "" ∅) (head l).
Definition answer {A} (dflt : A) (r : Res A) : A :=
  match r with Ok a => a | HTTPException _ _ => dflt end.

Lemma to_str_id_of_stored_document_sample :
  to_str_id (as_dict (mkDoc video1_id (<["title" := VStr "first"]> ∅))) !! "title"
  = render <$> doc_fields (mkDoc video1_id (<["title" := VStr "first"]> ∅)) !! "title".
Proof.
  apply (proj2 (proj2 (to_str_id_of_stored_document
                         (mkDoc video1_id (<["title" := VStr "first"]> ∅))))); done.
Defined.

Lemma register_rejects_taken_email_or_username_sample :
  register alice_request "s" carol_id 8 8 st_users
  = (HTTPException 400 "Email already in use", st_users)
  ∧ register (mkRegisterRequest "alice" "other@x.com" "pw") "s" carol_id 8 8 st_users
    = (HTTPException 400 "Username already in use", st_users).
Proof.
  split.
  - apply (proj1 (register_rejects_taken_email_or_username st_users alice_request
                    "s" carol_id 8 8 (first_doc (db_user st_users)))). run.
  - apply (proj2 (register_rejects_taken_email_or_username st_users
                    (mkRegisterRequest "alice" "other@x.com" "pw")
                    "s" carol_id 8 8 (first_doc (db_user st_users)))); run.
Defined.


Lemma register_then_login_sample :
  ∃ profile,
    login (mkLoginRequest "carol@x.com" "pw3")
          (register carol_request "s3" carol_id 8 8 st_users).2
    = (Ok profile, (register carol_request "s3" carol_id 8 8 st_users).2)
    ∧ profile !! "id" = Some (VStr carol_id)
    ∧ profile !! "password_hash" = None.
Proof.
  apply (register_then_login st_users _ carol_request "s3" carol_id 8 8
           (answer ∅ (register carol_request "s3" carol_id 8 8 st_users).1)); run.
Defined.

Lemma second_registration_rejected_sample :
  register (mkRegisterRequest "caroline" "carol@x.com" "pw") "s4" ALICE_ID 9 9
           (register carol_request "s3" carol_id 8 8 st_users).2
  = (HTTPException 400 "Email already in use",
     (register carol_request "s3" carol_id 8 8 st_users).2).
Proof.
  assert (register carol_request "s3" carol_id 8 8 st_users
          = (Ok (answer ∅ (register carol_request "s3" carol_id 8 8 st_users).1),
             (register carol_request "s3" carol_id 8 8 st_users).2)) as Hreg by run.
  apply (proj1 (second_registration_rejected st_users _ carol_request
                  (mkRegisterRequest "caroline" "carol@x.com" "pw") "s3" "s4"
                  carol_id ALICE_ID 8 8 9 9 _ Hreg)).
  reflexivity.
Defined.

Lemma login_answer_has_no_hash_sample :
  answer ∅ (login (mkLoginRequest "alice@x.com" "pw1") st_users).1 !! "password_hash" = None.
Proof.
  apply (proj2 (login_answer_has_no_hash st_users st_users
                  (mkLoginRequest "alice@x.com" "pw1")
                  (answer ∅ (login (mkLoginRequest "alice@x.com" "pw1") st_users).1))).
  run.
Defined.

Lemma get_video_counts_one_view_sample :
  ∃ r st' v',
    get_video video1_id 9 st_video = (r, st')
    ∧ find_one [("_id", VOid video1_id)] (db_video st') = Some v'
    ∧ doc_fields v' !! "views_count" = Some (VInt (0 + 1))
    ∧ doc_fields v' !! "updated_at" = Some (VDate 9)
    ∧ (∀ k, k ≠ "views_count" → k ≠ "updated_at" →
            doc_fields v' !! k = doc_fields (first_doc (db_video st_video)) !! k)
    ∧ (db_user st', db_comment st', db_like st', db_subscription st', files st')
      = (db_user st_video, db_comment st_video, db_like st_video,
         db_subscription st_video, files st_video)
    ∧ (∀ payload, r = Ok payload → payload !! "views_count" = Some (JVal (VInt (0 + 1)))).
Proof.
  apply (get_video_counts_one_view st_video video1_id video1_id
           (first_doc (db_video st_video)) 0 9); run.
Defined.

Lemma lookup_by_id_errors_sample :
  get_video "not-an-id" 9 st_video = (HTTPException 400 "Invalid id format", st_video)
  ∧ get_channel nobody_id st_video = (HTTPException 404 "Channel not found", st_video).
Proof.
  split.
  - apply (proj1 (lookup_by_id_errors st_video "not-an-id" 9)). run.
  - apply (proj2 (lookup_by_id_errors st_video nobody_id 9) nobody_id); run.
Defined.

Lemma get_video_embeds_owner_or_null_sample :
  ∃ payload st',
    get_video video1_id 9 st_video = (Ok payload, st')
    ∧ payload !! "channel"
      = Some (JObj (to_str_id (as_dict (first_doc (db_user st_video))))).
Proof.
  assert (ObjectId video1_id = Some video1_id) as Ho by run.
  assert (find_one [("_id", VOid video1_id)] (db_video st_video)
          = Some (first_doc (db_video st_video))) as Hv by run.
  apply (proj1 (get_video_embeds_owner_or_null st_video video1_id video1_id
                  (first_doc (db_video st_video)) 9 Ho Hv) alice_id alice_id);
    [run|done|run|run].
Defined.


Lemma missing_target_rejected_sample :
  like_video nobody_id (mkLikeRequest 1) (Some bob_id) like1_id 5 st_video
  = (HTTPException 404 "Video not found", st_video)
  ∧ subscribe_channel "not-an-id" (Some bob_id) sub1_id 6 st_video
    = (HTTPException 400 "Invalid id format", st_video).
Proof.
  assert (authenticated st_video bob_id) as Hauth by run.
  split.
  - apply (proj2 (missing_target_rejected st_video nobody_id bob_id "" like1_id
                    (mkLikeRequest 1) 5 Hauth) nobody_id); run.
  - apply (proj1 (missing_target_rejected st_video "not-an-id" bob_id "" sub1_id
                    (mkLikeRequest 1) 6 Hauth)); [run|done].
Defined.


Lemma like_video_frame_sample :
  (db_user st_liked, db_comment st_liked, db_subscription st_liked, files st_liked)
  = (db_user st_video, db_comment st_video, db_subscription st_video, files st_video)
  ∧ Forall2 (fun d d' => doc_id d' = doc_id d
                         ∧ ∀ k, k ≠ "likes_count" → doc_fields d' !! k = doc_fields d !! k)
      (db_video st_video) (db_video st_liked).
Proof.
  apply (like_video_frame st_video st_liked video1_id like1_id
           (mkLikeRequest 1) (Some bob_id) 5
           (like_video video1_id (mkLikeRequest 1) (Some bob_id) like1_id 5 st_video).1).
  run.
Defined.

Lemma like_video_moves_count_by_at_most_one_sample :
  count_documents [("video_id", VStr video1_id); ("value", VInt 1)] (db_like st_video) - 1
  ≤ count_documents [("video_id", VStr video1_id); ("value", VInt 1)] (db_like st_liked)
  ≤ count_documents [("video_id", VStr video1_id); ("value", VInt 1)] (db_like st_video) + 1.
Proof.
  apply (like_video_moves_count_by_at_most_one st_video st_liked video1_id like1_id
           (mkLikeRequest 1) (Some bob_id) 5
           (like_video video1_id (mkLikeRequest 1) (Some bob_id) like1_id 5 st_video).1).
  - by_computation.
  - run.
Defined.

Lemma subscribe_channel_count_is_fresh_count_sample :
  sub_response alice_id 1 !! "subscriber_count"
  = Some (VInt (count_documents [("channel_id", VStr alice_id)]
                  (db_subscription st_subscribed)))
  ∧ ∃ o cd, ObjectId alice_id = Some o
            ∧ find_one [("_id", VOid o)] (db_user st_subscribed) = Some cd
            ∧ doc_fields cd !! "subscriber_count"
              = Some (VInt (count_documents [("channel_id", VStr alice_id)]
                              (db_subscription st_subscribed))).
Proof.
  apply (subscribe_channel_count_is_fresh_count st_video st_subscribed alice_id sub1_id
           (Some bob_id) 6 (sub_response alice_id 1)).
  run.
Defined.


(** Alice's id in capitals is another text for the same ObjectId. *)
Lemma self_check_compares_text_sample :
  ∃ resp st' row,
    subscribe_channel ALICE_ID (Some alice_id) sub1_id 6 st_video = (Ok resp, st')
    ∧ db_subscription st' = db_subscription st_video ++ [row]
    ∧ as_dict row !! "channel_id" = Some (VStr ALICE_ID)
    ∧ as_dict row !! "subscriber_id" = Some (VStr alice_id).
Proof.
  apply (self_check_compares_text st_video ALICE_ID alice_id alice_id sub1_id 6);
    [run|done|run|run|run].
Defined.

Lemma get_channel_counts_now_sample :
  ∃ payload docs,
    get_channel alice_id st_subscribed = (Ok payload, st_subscribed)
    ∧ payload !! "subscriber_count"
      = Some (JVal (VInt (count_documents [("channel_id", VStr alice_id)]
                            (db_subscription st_subscribed))))
    ∧ payload !! "videos" = Some (JArr ((fun v => to_str_id (as_dict v)) <$> docs))
    ∧ docs ≡ₚ find [("user_id", VStr alice_id)] (db_video st_subscribed)
    ∧ StronglySorted not_older docs
    ∧ payload !! "id" = Some (JVal (VStr (doc_id (first_doc (db_user st_subscribed))))).
Proof.
  apply (get_channel_counts_now st_subscribed alice_id alice_id
           (first_doc (db_user st_subscribed))); run.
Defined.

Lemma listings_return_the_newest_sample :
  ∃ docs rest : list Doc,
    list_videos (Some 1) st_two_videos
    = (Ok ((fun v => to_str_id (as_dict v)) <$> docs), st_two_videos)
    ∧ docs ++ rest ≡ₚ db_video st_two_videos
    ∧ (∀ a b, a ∈ docs → b ∈ rest → not_older a b)
    ∧ length docs = Nat.min (Z.to_nat 1) (length (db_video st_two_videos)).
Proof.
  destruct (listings_return_the_newest st_two_videos (Some 1))
    as (docs & rest & Hlist & _ & Hperm & Hnewest & Hlen & _).
  exists docs, rest. split; [exact Hlist|]. split; [exact Hperm|].
  split; [exact Hnewest|]. apply Hlen. simpl. lia.
Defined.



Lemma list_comments_joins_authors_sample :
  ∃ docs, Forall2 (comment_item st_comment) docs
            (answer [] (list_comments video1_id None st_comment).1)
          ∧ (∀ d, d ∈ docs → d ∈ db_comment st_comment
                             ∧ as_dict d !! "video_id" = Some (VStr video1_id))
          ∧ StronglySorted not_older docs
          ∧ (0 < default 50 None →
             Z.of_nat (length (answer [] (list_comments video1_id None st_comment).1))
             ≤ default 50 None).
Proof.
  apply (proj2 (list_comments_joins_authors st_comment video1_id None)). run.
Defined.


End MoreExamples.
